(** * Manu-fcuk/finance: the number formatters, the chart link and the
      per-ticker render loop of [chart.py]

    A shallow embedding of [chart.py].  Python's [int] is [Z], Python's
    [float] is an IEEE 754 binary64 value ([spec_float] with precision 53
    and maximal exponent 1024, the executable specification of the
    Standard Library), [None] is [None], an exception is the [Raise] branch
    of [result], a [dict] is a [gmap], and what Streamlit displays is the
    list of elements written so far. *)

From Stdlib Require Import ZArith NArith Ascii String.
From Stdlib Require Import DecimalString DecimalN DecimalFacts.
From Stdlib.Floats Require Import SpecFloat.
From stdpp Require Import base tactics option list strings gmap.

Local Open Scope Z_scope.

(** ** Exceptions and results *)

(** The exceptions the modelled code can raise.  [ClientError] stands for
    whatever the data client raises when a fetch fails. *)
Inductive exn : Type :=
  | OverflowError
  | ZeroDivisionError
  | KeyError (key : string)
  | TypeError (operation : string)
  | ValueError (msg : string)
  | AttributeError (attribute : string)
  | ClientError (msg : string).

Inductive result (A : Type) : Type :=
  | Ok (a : A)
  | Raise (e : exn).
Arguments Ok {A} a.
Arguments Raise {A} e.

#[global] Instance result_ret : MRet result := fun A a => Ok a.
#[global] Instance result_bind : MBind result := fun A B f r =>
  match r with
  | Ok a => f a
  | Raise e => Raise e
  end.
#[global] Instance result_fmap : FMap result := fun A B f r =>
  match r with
  | Ok a => Ok (f a)
  | Raise e => Raise e
  end.

(** ** Python floats: binary64 *)

Module F64.

Definition prec : Z := 53.
Definition emax : Z := 1024.

(** A well-formed double: the mantissa is canonical and the exponent is
    in range. *)
Definition well_formed (x : spec_float) : bool := valid_binary prec emax x.

(** The double nearest to an integer (ties to even, infinite when the
    integer is out of range). *)
Definition of_Z (n : Z) : spec_float := binary_normalize prec emax n 0 false.

Definition div (x y : spec_float) : spec_float := SFdiv prec emax x y.
Definition mul (x y : spec_float) : spec_float := SFmul prec emax x y.
Definition abs (x : spec_float) : spec_float := SFabs x.
Definition opp (x : spec_float) : spec_float := SFopp x.
Definition ltb (x y : spec_float) : bool := SFltb x y.
Definition leb (x y : spec_float) : bool := SFleb x y.

Definition is_zero (x : spec_float) : bool :=
  match x with
  | S754_zero _ => true
  | _ => false
  end.

(** The value a decimal literal [n/d] denotes: the literal is read with
    correct rounding, and so is the quotient of two exact doubles. *)
Definition literal (n d : Z) : spec_float := div (of_Z n) (of_Z d).

(** The least integer magnitude whose conversion overflows: halfway
    between the largest double and [2^1024]. *)
Definition overflow_threshold : Z := 2 ^ 1024 - 2 ^ 970.

End F64.

Abbreviation float := spec_float.

(** ** Python numbers *)

Inductive number : Type :=
  | PyInt (n : Z)
  | PyFloat (x : float).

(** [float(n)] for an [int]: correctly rounded, [OverflowError] when the
    rounded value is not finite. *)
Definition int_to_float (n : Z) : result float :=
  if Z.abs n <? F64.overflow_threshold then Ok (F64.of_Z n)
  else Raise OverflowError.

Definition to_float (a : number) : result float :=
  match a with
  | PyInt n => int_to_float n
  | PyFloat x => Ok x
  end.

(** [abs(a)] *)
Definition py_abs (a : number) : number :=
  match a with
  | PyInt n => PyInt (Z.abs n)
  | PyFloat x => PyFloat (F64.abs x)
  end.

(** [-a] *)
Definition py_neg (a : number) : number :=
  match a with
  | PyInt n => PyInt (- n)
  | PyFloat x => PyFloat (F64.opp x)
  end.

(** [n < y] for an [int] and a [float]: Python compares the exact values. *)
Definition int_lt_float (n : Z) (y : float) : bool :=
  match y with
  | S754_nan => false
  | S754_infinity s => negb s
  | S754_zero _ => n <? 0
  | S754_finite s m e =>
      let v := cond_Zopp s (Z.pos m) in
      match e with
      | Zneg k => n * 2 ^ Z.pos k <? v
      | _ => n <? v * 2 ^ e
      end
  end.

(** [a < y] with a [float] on the right, as in [abs(number) < 1000.0]. *)
Definition py_lt_float (a : number) (y : float) : bool :=
  match a with
  | PyInt n => int_lt_float n y
  | PyFloat x => F64.ltb x y
  end.

(** [a / y] with a [float] divisor, as in [number /= 1000.0]: the left
    operand is converted first, then a zero divisor is refused. *)
Definition py_truediv_float (a : number) (y : float) : result number :=
  x ← to_float a;
  if F64.is_zero y then Raise ZeroDivisionError
  else Ok (PyFloat (F64.div x y)).

(** [a * k] with an [int] literal on the right, as in [number * 100]. *)
Definition py_mul_int (a : number) (k : Z) : result number :=
  match a with
  | PyInt n => Ok (PyInt (n * k))
  | PyFloat x => y ← int_to_float k; Ok (PyFloat (F64.mul x y))
  end.

(** ** Fixed-point rendering: the format type [f] *)

Definition digit_char (d : Z) : ascii :=
  match d with
  | 0 => "0" | 1 => "1" | 2 => "2" | 3 => "3" | 4 => "4"
  | 5 => "5" | 6 => "6" | 7 => "7" | 8 => "8" | _ => "9"
  end%char.

(** The decimal digits of a natural number, without leading zeros
    (["0"] for zero). *)
Definition dec (n : Z) : string := NilZero.string_of_uint (N.to_uint (Z.to_N n)).

(** The last [p] decimal digits of [n], in front of [acc]. *)
Fixpoint frac_digits (p : nat) (n : Z) (acc : string) : string :=
  match p with
  | O => acc
  | S p' => frac_digits p' (n / 10) (String (digit_char (n mod 10)) acc)
  end.

(** [n / 10^p] written with [p] fractional digits. *)
Definition decimal (p : nat) (n : Z) : string :=
  dec (n / 10 ^ Z.of_nat p) +:+
  match p with
  | O => ""
  | S _ => String "."%char (frac_digits p n "")
  end.

(** The integer nearest to [m * 2^e * 10^p], ties to even: Python renders
    the exact binary value, correctly rounded. *)
Definition scaled_round (p : nat) (m : positive) (e : Z) : Z :=
  let num := Z.pos m * 10 ^ Z.of_nat p in
  match e with
  | Zneg k =>
      let den := 2 ^ Z.pos k in
      let q := num / den in
      match 2 * (num mod den) ?= den with
      | Lt => q
      | Eq => if Z.even q then q else q + 1
      | Gt => q + 1
      end
  | _ => num * 2 ^ e
  end.

Definition sign_str (s : bool) : string := if s then "-" else "".

(** [format(x, ".<p>f")] for a [float]. *)
Definition fixed (p : nat) (x : float) : string :=
  match x with
  | S754_nan => "nan"
  | S754_infinity s => sign_str s +:+ "inf"
  | S754_zero s => sign_str s +:+ decimal p 0
  | S754_finite s m e => sign_str s +:+ decimal p (scaled_round p m e)
  end.

Fixpoint spaces (n : nat) : string :=
  match n with
  | O => ""
  | S n' => String " "%char (spaces n')
  end.

(** A number is right-aligned in a field of at least [width] characters. *)
Definition pad_left (width : nat) (s : string) : string :=
  spaces (width - String.length s) +:+ s.

(** [format(a, "<width>.<p>f")]: an [int] is converted to [float] first. *)
Definition format_f (width p : nat) (a : number) : result string :=
  x ← to_float a; Ok (pad_left width (fixed p x)).

(** ** The formatters of [chart.py] *)

(** The literal [1000.0]. *)
Definition f1000 : float := Eval vm_compute in F64.of_Z 1000.

(** The body of [for unit in ['', 'K', 'M', 'B', 'T']] with the [return]
    that follows the loop. *)
Fixpoint format_number_loop (units : list string) (number : number)
  : result string :=
  match units with
  | unit :: units' =>
      if py_lt_float (py_abs number) f1000 then
        s ← format_f 3 1 number; Ok (s +:+ unit)
      else
        number' ← py_truediv_float number f1000;
        format_number_loop units' number'
  | [] => s ← format_f 0 1 number; Ok (s +:+ "T")
  end.

Definition units : list string := [""; "K"; "M"; "B"; "T"].

Definition format_number (number : option number) : result string :=
  match number with
  | None => Ok "N/A"
  | Some n => format_number_loop units n
  end.

Definition format_percentage (number : option number) : result string :=
  match number with
  | None => Ok "N/A"
  | Some n => n100 ← py_mul_int n 100; s ← format_f 0 2 n100; Ok (s +:+ "%")
  end.

Definition format_pe_ratio (pe_ratio : option number) : result string :=
  match pe_ratio with
  | None => Ok "N/A"
  | Some n => s ← format_f 0 2 n; Ok (s +:+ "X")
  end.

(** ** Statement vocabulary *)

(** The call returns a string. *)
Definition returns {A : Type} (r : result A) : Prop :=
  match r with
  | Ok _ => True
  | Raise _ => False
  end.

(** An input whose product with [k], when it is an [int], converts to a
    finite [float]. *)
Definition convertible (k : Z) (v : option number) : Prop :=
  match v with
  | Some (PyInt n) => Z.abs (n * k) < F64.overflow_threshold
  | _ => True
  end.

(** [N] is the integer nearest to [m * 2^e * 10^p], the even one of the two
    when [m * 2^e * 10^p] lies halfway between two integers. *)
Definition nearest_scaled (p : nat) (m : positive) (e : Z) (N : Z) : Prop :=
  0 <= N /\
  match e with
  | Zneg k =>
      let d := 2 ^ Z.pos k in
      let err := Z.abs (N * d - Z.pos m * 10 ^ Z.of_nat p) in
      2 * err < d \/ (2 * err = d /\ Z.even N = true)
  | _ => N = Z.pos m * 10 ^ Z.of_nat p * 2 ^ e
  end.

(** [N / 100] written out: the integer part, a point and exactly two
    fractional digits. *)
Definition hundredths (N : Z) : string :=
  dec (N / 100) +:+
  String "."%char
    (String (digit_char (N / 10 mod 10)) (String (digit_char (N mod 10)) "")).

(** [out] is [x] rendered with exactly two fractional digits. *)
Definition rendered_2f (x : float) (out : string) : Prop :=
  match x with
  | S754_nan => out = "nan"
  | S754_infinity s => out = sign_str s +:+ "inf"
  | S754_zero s => out = sign_str s +:+ "0.00"
  | S754_finite s m e =>
      exists N, nearest_scaled 2 m e N /\ out = sign_str s +:+ hundredths N
  end.

(** A value that is not NaN and whose sign bit is [s]. *)
Definition has_sign (s : bool) (x : float) : Prop :=
  match x with
  | S754_nan => False
  | S754_zero s' | S754_infinity s' | S754_finite s' _ _ => s' = s
  end.

(** A number strictly above zero. *)
Definition positive_number (a : number) : Prop :=
  match a with
  | PyInt n => 0 < n
  | PyFloat x => F64.ltb (S754_zero false) x = true
  end.

(** ** Reading the loop of [format_number] *)

(** [number] after [k] runs of [number /= 1000.0]. *)
Fixpoint scaled (k : nat) (a : number) : result number :=
  match k with
  | O => Ok a
  | S k' => a' ← py_truediv_float a f1000; scaled k' a'
  end.

(** The test [abs(number) < 1000.0]. *)
Definition below_1000 (a : number) : bool := py_lt_float (py_abs a) f1000.

(** The test [abs(number) >= 1000.0]. *)
Definition at_least_1000 (a : number) : bool :=
  match py_abs a with
  | PyInt n => 1000 <=? n
  | PyFloat x => F64.leb f1000 x
  end.

(** The number with one fractional digit, then the suffix. *)
Definition render_with_suffix (a : number) (u : string) : result string :=
  s ← format_f 0 1 a; Ok (s +:+ u).

(** The magnitude formatter in the spec's words: divide by 1000 while the
    absolute value is at least 1000 and a further suffix exists (so at most
    four times), then render with the current suffix; a value still at
    least 1000 under the last suffix is rendered with that suffix. *)
Fixpoint format_magnitude_loop (u : string) (rest : list string) (a : number)
  : result string :=
  match rest with
  | u' :: rest' =>
      if at_least_1000 a then
        a' ← py_truediv_float a f1000; format_magnitude_loop u' rest' a'
      else render_with_suffix a u
  | [] => render_with_suffix a u
  end.

Definition format_magnitude (v : option number) : result string :=
  match v with
  | None => Ok "N/A"
  | Some a => format_magnitude_loop "" ["K"; "M"; "B"; "T"] a
  end.

(** The saturation rule in the spec's words: the value scaled by [10^12]
    (four divisions by 1000), one fractional digit, the suffix ["T"]. *)
Definition format_saturated (a : number) : result string :=
  x ← scaled 4 a; render_with_suffix x "T".

(** ** The chart link *)

Definition finviz_prefix : string := "https://finviz.com/chart.ashx?t=".
Definition finviz_suffix : string := "&ty=c&ta=st_1,ta_4&p=d&s=l".

(** [f"https://finviz.com/chart.ashx?t={ticker}&ty=c&ta=st_1,ta_4&p=d&s=l"]:
    the replacement field of a [str] is the string itself. *)
Definition finviz_url (ticker : string) : string :=
  "https://finviz.com/chart.ashx?t=" +:+ ticker +:+ "&ty=c&ta=st_1,ta_4&p=d&s=l".

(** The double quote. *)
Definition dq : string := String (ascii_of_nat 34) "".

(** The first [st.markdown] of [display_finviz_chart]: the chart image,
    linked to itself. *)
Definition chart_image_html (finviz_url : string) : string :=
  "<div style=" +:+ dq +:+ "text-align:center" +:+ dq +:+ "><a href=" +:+ dq +:+
  finviz_url +:+ dq +:+ " target=" +:+ dq +:+ "_blank" +:+ dq +:+ "><img src=" +:+ dq +:+
  finviz_url +:+ dq +:+ " style=" +:+ dq +:+
  "width: 100%; border: 2px solid #cccccc; border-radius: 5px;" +:+ dq +:+
  "/></a></div>".

(** The second [st.markdown]: the ticker as a caption, linked to the chart. *)
Definition chart_caption_html (finviz_url ticker : string) : string :=
  "<p style=" +:+ dq +:+ "text-align:center" +:+ dq +:+ "><a href=" +:+ dq +:+
  finviz_url +:+ dq +:+ " target=" +:+ dq +:+ "_blank" +:+ dq +:+ ">" +:+ ticker +:+
  "</a></p>".

(** ** Python values, frames and the data client *)

(** What a cell of a frame or an entry of the [info] dict holds. *)
Inductive pyval : Type :=
  | VNone
  | VNum (a : number)
  | VStr (s : string).

Record date : Type := mkDate { year : Z; month : Z; day : Z }.

Inductive label : Type :=
  | LStr (s : string)
  | LInt (n : Z).

(** The labels of an axis of a frame: dates or plain labels. *)
Inductive axis : Type :=
  | DatetimeIndex (dates : list date)
  | Index (labels : list label).

Definition axis_size (ax : axis) : nat :=
  match ax with
  | DatetimeIndex dates => length dates
  | Index labels => length labels
  end.

(** A [DataFrame]: row labels, column labels and the cells, stored column
    by column. *)
Record frame : Type := mkFrame {
  index : axis;
  columns : axis;
  data : list (list pyval)
}.

Definition label_eqb (a b : label) : bool :=
  match a, b with
  | LStr s, LStr t => String.eqb s t
  | LInt n, LInt m => n =? m
  | _, _ => false
  end.

Fixpoint position (l : label) (labels : list label) : option nat :=
  match labels with
  | [] => None
  | l' :: labels' =>
      if label_eqb l l' then Some O else S <$> position l labels'
  end.

(** Where the column named [c] is, if the frame has it. *)
Definition column_position (f : frame) (c : string) : option nat :=
  match columns f with
  | Index labels => position (LStr c) labels
  | DatetimeIndex _ => None
  end.

(** ['c' in f.columns] *)
Definition has_column (f : frame) (c : string) : bool :=
  match column_position f c with
  | Some _ => true
  | None => false
  end.

(** [f[c]] *)
Definition get_column (f : frame) (c : string) : result (list pyval) :=
  match column_position f c with
  | Some j => Ok (default [] (data f !! j))
  | None => Raise (KeyError c)
  end.

(** [f[c] = col]: an existing column is replaced, a new one is added last. *)
Definition set_column (f : frame) (c : string) (col : list pyval) : frame :=
  match column_position f c, columns f with
  | Some j, _ => mkFrame (index f) (columns f) (<[j := col]> (data f))
  | None, Index labels =>
      mkFrame (index f) (Index (labels ++ [LStr c])) (data f ++ [col])
  | None, DatetimeIndex dates =>
      mkFrame (index f) (Index [LStr c]) (data f ++ [col])
  end.

(** The monadic map over a list: the first exception stops it. *)
Fixpoint mapM {A B : Type} (f : A -> result B) (l : list A) : result (list B) :=
  match l with
  | [] => Ok []
  | x :: l' => y ← f x; ys ← mapM f l'; Ok (y :: ys)
  end.

(** [f[[c1, ..., cn]]] *)
Definition select_columns (f : frame) (cs : list string) : result frame :=
  cols ← mapM (get_column f) cs;
  Ok (mkFrame (index f) (Index (LStr <$> cs)) cols).

Definition cell (col : list pyval) (i : nat) : pyval := default VNone (col !! i).

(** [f.T] *)
Definition transpose (f : frame) : frame :=
  mkFrame (columns f) (index f)
    ((fun i => (fun col => cell col i) <$> data f) <$> seq 0 (axis_size (index f))).

(** [f.index.year]: only an index of dates has years. *)
Definition index_year (f : frame) : result axis :=
  match index f with
  | DatetimeIndex dates => Ok (Index ((fun d => LInt (year d)) <$> dates))
  | Index _ => Raise (AttributeError "year")
  end.

Definition set_index (f : frame) (ix : axis) : frame :=
  mkFrame ix (columns f) (data f).

Definition last_n {A : Type} (n : nat) (l : list A) : list A :=
  drop (length l - n) l.

Definition axis_tail (n : nat) (ax : axis) : axis :=
  match ax with
  | DatetimeIndex dates => DatetimeIndex (last_n n dates)
  | Index labels => Index (last_n n labels)
  end.

(** [f.tail(n)] *)
Definition tail (n : nat) (f : frame) : frame :=
  mkFrame (axis_tail n (index f)) (columns f) (last_n n <$> data f).

(** The formatters called on a cell or a dict entry: [abs] refuses a
    string, and so does the format type [f]. *)
Definition format_number_val (v : pyval) : result string :=
  match v with
  | VNone => format_number None
  | VNum a => format_number (Some a)
  | VStr _ => Raise (TypeError "abs")
  end.

Definition format_percentage_val (v : pyval) : result string :=
  match v with
  | VNone => format_percentage None
  | VNum a => format_percentage (Some a)
  | VStr _ => Raise (ValueError "f")
  end.

Definition format_pe_ratio_val (v : pyval) : result string :=
  match v with
  | VNone => format_pe_ratio None
  | VNum a => format_pe_ratio (Some a)
  | VStr _ => Raise (ValueError "f")
  end.

(** [col.apply(format_number)] *)
Definition apply_format_number (col : list pyval) : result (list pyval) :=
  mapM (fun v => VStr <$> format_number_val v) col.

Definition is_number (v : pyval) : bool :=
  match v with
  | VNum _ => true
  | _ => false
  end.

(** [f.select_dtypes(include=['number']).columns]: the names of the columns
    that hold numbers only. *)
Definition numeric_columns (f : frame) : list string :=
  match columns f with
  | Index labels =>
      omap (fun lc : label * list pyval =>
              match lc with
              | (LStr c, col) => if forallb is_number col then Some c else None
              | _ => None
              end)
           (zip labels (data f))
  | DatetimeIndex _ => []
  end.

(** [f[cs] = f[cs].applymap(format_number)] *)
Fixpoint format_columns (f : frame) (cs : list string) : result frame :=
  match cs with
  | [] => Ok f
  | c :: cs' =>
      col ← get_column f c;
      col' ← apply_format_number col;
      format_columns (set_column f c col') cs'
  end.

(** What [yf.Ticker(ticker)] answers, attribute by attribute; each access
    may raise.  [calendar] stands for [pd.DataFrame(stock.calendar)]. *)
Record client : Type := mkClient {
  recommendations : string -> result (option frame);
  info : string -> result (gmap string pyval);
  financials : string -> result frame;
  calendar : string -> result frame;
  earnings : string -> result (option frame);
  quarterly_earnings : string -> result (option frame)
}.

(** ** Streamlit *)

(** One call of the Streamlit interface. *)
Inductive element : Type :=
  | Write (text : string)
  | Header (text : string)
  | Subheader (text : string)
  | Markdown (html : string)
  | Dataframe (f : frame)
  | SidebarTitle (text : string)
  | SidebarMultiselect (text : string) (options default : list string)
  | SidebarWrite (text : string).

(** A piece of the script: the elements it displays, in order, and its
    value or the exception that ended it.  What was displayed before an
    exception stays displayed. *)
Definition ui (A : Type) : Type := (list element * result A)%type.

#[global] Instance ui_ret : MRet ui := fun A a => ([], Ok a).
#[global] Instance ui_bind : MBind ui := fun A B f m =>
  match m with
  | (out, Ok a) => let '(out', r) := f a in (out ++ out', r)
  | (out, Raise e) => (out, Raise e)
  end.

Definition emit (e : element) : ui unit := ([e], Ok tt).

(** A call that displays nothing. *)
Definition call {A : Type} (r : result A) : ui A := ([], r).

Definition raises {A : Type} (m : ui A) : bool :=
  match m.2 with
  | Ok _ => false
  | Raise _ => true
  end.

(** The decimal digits of an [int], with its sign. *)
Definition str_int (n : Z) : string :=
  (if n <? 0 then "-" else "") +:+ dec (Z.abs n).

(** [sys.int_max_str_digits], as CPython sets it: [str] of an [int] with
    more digits raises [ValueError]. *)
Definition int_max_str_digits : Z := 4300.

(** The least magnitude with more digits than that. *)
Definition str_digits_bound : Z := 10 ^ int_max_str_digits.


(** ** The script *)

(** The tickers offered in the sidebar and the ones selected at first. *)
Definition ticker_options : list string :=
  ["AAPL"; "MSFT"; "NVDA"; "AMZN"; "GOOG"; "META"; "TSLA"; "WMT"; "LLY";
   "JPM"; "V"; "MA"; "ORCL"; "XOM"; "COST"; "NFLX"; "HD"; "PG"; "JNJ";
   "BAC"; "SAP"; "CRM"; "ASML"; "KO"; "CVX"; "ACN"; "MRK"; "CSCO"; "IBM";
   "NOVN"; "NESN"; "AXP"; "MS"; "LIN"; "AZN"; "MCD"; "PEP"; "DIS"; "PM";
   "ADBE"; "PLTR"; "QCOM"; "AMD"; "HSBA"; "CAT"; "T"; "VZ"; "INTU"; "BLK";
   "BKNG"; "AMGN"; "C"; "PFE"; "SHOP"; "AMAT"; "HON"; "UBER"; "ULVR";
   "SANO"; "TTE"; "BA"; "FRA:AIR"; "CMCSA"; "DE"; "SBUX"; "PANW"; "CDI";
   "NKE"; "SPOT"; "LMT"; "RIO"; "MU"; "BHP"; "BN"; "CRWD"; "UPS"; "PYPL";
   "ZURN"; "BUD"; "BATS"; "INTC"; "ABNB"; "MMM"; "RACE"; "MAR"; "FTNT";
   "MDLZ"; "BNP"; "COIN"; "GSK"; "DELL"; "MUV2"; "TGT"; "SNOW"; "FDX";
   "SQ"; "HOLN"; "VOW"; "INGA"; "LULU"; "BMW"; "GM"; "O"; "NET"; "HMC";
   "RBLX"; "ENI"; "LLOY"; "SREN"; "KMB"; "LONN"; "DAL"; "VALE"; "ALC";
   "GLEN"; "F"; "ENGI"; "YUM"; "PGHN"; "DBK"; "SIKA"; "GIVN"; "STLA";
   "KHC"; "CCL"; "GIS"; "TTWO"; "EBAY"; "EA"; "ZS"; "KER"; "EL"; "TSCO";
   "BNTX"; "SCMN"; "K"; "SCHN"; "P911"; "ZM"; "PHIA"; "WBD"; "DTE"; "KNIN";
   "LISN"; "CHKP"; "CBK"; "RWE"; "PINS"; "EXPE"; "VOD"; "SLHN"; "VIE";
   "SOON"; "SNAP"; "GEBN"; "HEIO"; "MONC"; "SGSN"; "EMSN"; "VIV"; "MRNA";
   "EDR"; "RIVN"; "NCLH"; "ROKU"; "AAL"; "VACN"; "ZAL"; "UHR"; "MTCH";
   "CFR"; "ALO"; "LCID"; "HELN"; "HAS"; "BCVN"; "SUN"; "LHA"; "BALN";
   "ALV"; "MKS"; "FHZN"; "ETSY"; "SQN"; "CS"; "TEMN"; "MC"; "OR"; "ACA";
   "PUM"; "ACLN"; "EMMN"; "BRBY"; "TUI1"; "AI"; "BKW"; "ORA"; "BOSS";
   "UAA"; "HOG"; "RMS"; "PTON"; "TKA"; "SGKN"; "MANU"; "GT"; "ROSE";
   "BEKN"; "CLN"; "SRAIL"; "BCGE"; "FL"; "MSGE"; "PLUG"; "VATN"; "ROG";
   "NVAX"; "JUVE"; "BMBL"; "ADEN"; "HFG"; "AC"; "CAC"; "IMPN"; "BYND"].

Definition default_tickers : list string := ["GOOG"; "AMZN"; "PLTR"].

Section Dashboard.

(** [repr] of a [float], which [str] uses; the script only meets it when the
    [sector] entry of [info] is a [float]. *)
Variable float_repr : float -> string.

(** The data client the script talks to. *)
Variable yf : client.

(** [str(v)], as a replacement field without format renders it; [str] of
    an [int] beyond the digit limit raises [ValueError]. *)
Definition py_str (v : pyval) : result string :=
  match v with
  | VNone => Ok "None"
  | VNum (PyInt n) =>
      if Z.abs n <? str_digits_bound then Ok (str_int n)
      else Raise (ValueError "int_max_str_digits")
  | VNum (PyFloat x) => Ok (float_repr x)
  | VStr s => Ok s
  end.

(** [d.get(key)] *)
Definition dict_get (d : gmap string pyval) (key : string) : pyval :=
  default VNone (d !! key).

(** [d.get(key, fallback)] *)
Definition dict_get_default (d : gmap string pyval) (key : string)
    (fallback : pyval) : pyval :=
  default fallback (d !! key).

Definition display_finviz_chart (ticker : string) : ui unit :=
  _ ← emit (Header "Finviz Chart Viewer");
  let finviz_url := finviz_url ticker in
  _ ← emit (Markdown (chart_image_html finviz_url));
  emit (Markdown (chart_caption_html finviz_url ticker)).

Definition display_analyst_rating (ticker : string) : ui unit :=
  rating ← call (recommendations yf ticker);
  match rating with
  | Some r =>
      _ ← emit (Subheader "Analyst Rating");
      emit (Dataframe (tail 10 r))
  | None => emit (Write "No analyst rating available.")
  end.

Definition display_stock_info (ticker : string) : ui unit :=
  d ← call (info yf ticker);
  _ ← emit (Subheader "Stock Information");
  s ← call (format_number_val (dict_get d "marketCap"));
  _ ← emit (Write ("**Market Cap:** " +:+ s));
  s ← call (format_pe_ratio_val (dict_get d "trailingPE"));
  _ ← emit (Write ("**PE Ratio:** " +:+ s));
  s ← call (format_pe_ratio_val (dict_get d "forwardPE"));
  _ ← emit (Write ("**Forward PE:** " +:+ s));
  s ← call (format_percentage_val (dict_get d "earningsGrowth"));
  _ ← emit (Write ("**Expected EPS Growth:** " +:+ s));
  s ← call (format_number_val (dict_get d "totalRevenue"));
  _ ← emit (Write ("**Revenue:** " +:+ s));
  s ← call (format_number_val (dict_get d "netIncomeToCommon"));
  _ ← emit (Write ("**Income:** " +:+ s));
  s ← call (format_number_val (dict_get d "sharesOutstanding"));
  _ ← emit (Write ("**Outstanding Shares:** " +:+ s));
  s ← call (py_str (dict_get_default d "sector" (VStr "N/A")));
  emit (Write ("**Sector:** " +:+ s)).

(** [f[c] = f[c].apply(format_number)] *)
Definition format_column (f : frame) (c : string) : result frame :=
  col ← get_column f c;
  col' ← apply_format_number col;
  Ok (set_column f c col').

Definition display_financials (ticker : string) : ui unit :=
  fin ← call (financials yf ticker);
  let fin := transpose fin in
  years ← call (index_year fin);
  let fin := set_index fin years in
  fin ← call (format_column fin "Total Revenue");
  fin ← call (format_column fin "Net Income");
  _ ← emit (Subheader "Financials");
  shown ← call (select_columns fin ["Total Revenue"; "Net Income"]);
  emit (Dataframe shown).

(** [if f is not None and c in f.columns: f[c] = f[c].apply(format_number)] *)
Definition format_column_if_present (f : option frame) (c : string)
  : result (option frame) :=
  match f with
  | Some fr => if has_column fr c then Some <$> format_column fr c else Ok f
  | None => Ok None
  end.

(** [if f is not None: st.dataframe(f)] *)
Definition show_if_present (f : option frame) : ui unit :=
  match f with
  | Some fr => emit (Dataframe fr)
  | None => mret tt
  end.

Definition display_calendar_and_expectations (ticker : string) : ui unit :=
  cal ← call (calendar yf ticker);
  earn ← call (earnings yf ticker);
  quarterly ← call (quarterly_earnings yf ticker);
  cal ← call (format_columns cal (numeric_columns cal));
  earn ← call (format_column_if_present earn "Revenue");
  earn ← call (format_column_if_present earn "Earnings");
  quarterly ← call (format_column_if_present quarterly "Revenue");
  quarterly ← call (format_column_if_present quarterly "Earnings");
  _ ← emit (Subheader "Calendar");
  _ ← emit (Dataframe cal);
  _ ← show_if_present earn;
  show_if_present quarterly.

(** The body of [for ticker in tickers]. *)
Definition ticker_section (ticker : string) : ui unit :=
  _ ← emit (Write ("## " +:+ ticker));
  _ ← display_finviz_chart ticker;
  _ ← display_stock_info ticker;
  _ ← display_financials ticker;
  _ ← display_calendar_and_expectations ticker;
  _ ← display_analyst_rating ticker;
  emit (Write "---").

Fixpoint for_tickers (tickers : list string) : ui unit :=
  match tickers with
  | [] => mret tt
  | ticker :: tickers' => _ ← ticker_section ticker; for_tickers tickers'
  end.

(** The script, given what the user selected in the sidebar. *)
Definition main (selection : list string) : ui unit :=
  _ ← emit (SidebarTitle "Finviz Chart Viewer");
  _ ← emit (SidebarMultiselect "Select Ticker Symbols:" ticker_options default_tickers);
  _ ← for_tickers selection;
  emit (SidebarWrite "Made with ❤️ by Manu").

(** The position of the first selected ticker whose section raises. *)
Fixpoint first_failure (tickers : list string) : option nat :=
  match tickers with
  | [] => None
  | ticker :: tickers' =>
      if raises (ticker_section ticker) then Some O
      else S <$> first_failure tickers'
  end.

End Dashboard.

(** The call raised. *)
Definition raised {A : Type} (r : result A) : bool :=
  match r with
  | Ok _ => false
  | Raise _ => true
  end.

(** Some fetch of the data client fails for the ticker. *)
Definition fetch_fails (yf : client) (ticker : string) : bool :=
  raised (info yf ticker) || raised (financials yf ticker) ||
  raised (calendar yf ticker) || raised (earnings yf ticker) ||
  raised (quarterly_earnings yf ticker) || raised (recommendations yf ticker).

(** ** A script without exception handling *)

(** What a sequence of statements displays when no exception is handled:
    the output of every part up to and including the first one that
    raises, and that exception; nothing of the parts after it. *)
Fixpoint displayed_until_raise (parts : list (ui unit)) : ui unit :=
  match parts with
  | [] => ([], Ok tt)
  | part :: parts' =>
      match part.2 with
      | Ok _ =>
          ((part.1 ++ (displayed_until_raise parts').1),
           (displayed_until_raise parts').2)
      | Raise e => (part.1, Raise e)
      end
  end.

(** The statements of the body of [for ticker in tickers], in order. *)
Definition section_parts (float_repr : float -> string) (yf : client)
    (ticker : string) : list (ui unit) :=
  [emit (Write ("## " +:+ ticker));
   display_finviz_chart ticker;
   display_stock_info float_repr yf ticker;
   display_financials yf ticker;
   display_calendar_and_expectations yf ticker;
   display_analyst_rating yf ticker;
   emit (Write "---")].

(** What the two sidebar calls before the loop display. *)
Definition sidebar_head : list element :=
  [SidebarTitle "Finviz Chart Viewer";
   SidebarMultiselect "Select Ticker Symbols:" ticker_options default_tickers].

(** What the sections of the given tickers display, one after the other. *)
Definition sections_output (float_repr : float -> string) (yf : client)
    (tickers : list string) : list element :=
  concat ((fun ticker => (ticker_section float_repr yf ticker).1) <$> tickers).

(** ** Reading what was displayed *)

(** The ticker of a section heading [## ticker]. *)
Definition heading_of (e : element) : option string :=
  match e with
  | Write (String "#" (String "#" (String " " ticker))) => Some ticker
  | _ => None
  end.

(** The tickers whose section was started, in display order. *)
Definition headings (out : list element) : list string := omap heading_of out.

Definition is_separator (e : element) : bool :=
  match e with
  | Write "---" => true
  | _ => false
  end.

(** The number of sections that were closed by their separator. *)
Definition separators (out : list element) : nat :=
  length (filter (fun e => is_separator e = true) out).

(** ** Two data clients to run the script on *)

(** An annual statement with two line items and two years, as
    [stock.financials] gives it: one row per line item, one column per
    date. *)
Definition sample_financials : frame :=
  mkFrame (Index [LStr "Total Revenue"; LStr "Net Income"])
          (DatetimeIndex [mkDate 2023 12 31; mkDate 2022 12 31])
          [[VNum (PyFloat (F64.of_Z 307394000000)); VNum (PyFloat (F64.of_Z 73795000000))];
           [VNum (PyFloat (F64.of_Z 282836000000)); VNum (PyFloat (F64.of_Z 59972000000))]].

Definition empty_frame : frame := mkFrame (Index []) (Index []) [].

(** A client that answers every ticker but [bad], for which fetching
    [info] raises. *)
Definition sample_client (bad : string) : client :=
  mkClient
    (fun _ => Ok None)
    (fun ticker =>
       if String.eqb ticker bad then Raise (ClientError "no data")
       else Ok {[ "marketCap" := VNum (PyInt 1500000); "sector" := VStr "Technology" ]})
    (fun _ => Ok sample_financials)
    (fun _ => Ok empty_frame)
    (fun _ => Ok None)
    (fun _ => Ok None).

(** A client whose annual statement has lost its [Total Revenue] line for
    the ticker [bad]. *)
Definition sample_client_missing_line (bad : string) : client :=
  mkClient
    (fun _ => Ok None)
    (fun _ => Ok ∅)
    (fun ticker =>
       if String.eqb ticker bad then
         Ok (mkFrame (Index [LStr "Net Income"])
                     (DatetimeIndex [mkDate 2023 12 31]) [[VNum (PyInt 5)]])
       else Ok sample_financials)
    (fun _ => Ok empty_frame)
    (fun _ => Ok None)
    (fun _ => Ok None).

Definition no_repr : float -> string := fun _ => "".

(** A string whose first character exists and is not [N]. *)
Definition starts_ok (s : string) : Prop :=
  match s with
  | String c _ => c <> "N"%char
  | EmptyString => False
  end.

(** Output with no section heading and no separator in it. *)
Definition plain (out : list element) : Prop :=
  headings out = [] /\ separators out = 0%nat.

(** A piece of a section that ends it: no heading, and one separator
    exactly when it runs to its end. *)
Definition closes (m : ui unit) : Prop :=
  headings m.1 = [] /\
  separators m.1 = (if raises m then 0 else 1)%nat.

(** A number that is not the [float] NaN. *)
Definition not_nan (a : number) : Prop :=
  match a with
  | PyFloat S754_nan => False
  | _ => True
  end.

(** ** Checks by enumeration *)

(** [format_number(n)] is [str(n)] followed by [".0"]. *)
Definition renders_exactly (n : Z) : bool :=
  match format_number (Some (PyInt n)) with
  | Ok s => String.eqb s (str_int n +:+ ".0")
  | Raise _ => false
  end.

(** The integers strictly between [-1000] and [1000]. *)
Definition small_ints : list Z := (fun i => Z.of_nat i - 999) <$> seq 0 1999.

(** ** Vocabulary for the sections *)

(** The entries of [info] that [display_stock_info] formats as numbers. *)
Definition stock_info_keys : list string :=
  ["marketCap"; "trailingPE"; "forwardPE"; "earningsGrowth"; "totalRevenue";
   "netIncomeToCommon"; "sharesOutstanding"].

(** A value every formatter accepts: [None], a [float], or an [int] whose
    hundredfold converts to [float]. *)
Definition formattable (v : pyval) : Prop :=
  match v with
  | VNone => True
  | VNum (PyFloat _) => True
  | VNum (PyInt n) => Z.abs (n * 100) < F64.overflow_threshold
  | VStr _ => False
  end.

(** A value [str] accepts: anything but an [int] beyond the digit limit. *)
Definition printable (v : pyval) : Prop :=
  match v with
  | VNum (PyInt n) => Z.abs n < str_digits_bound
  | _ => True
  end.

(** The [info] that [sample_client] answers. *)
Definition sample_info : gmap string pyval :=
  {[ "marketCap" := VNum (PyInt 1500000); "sector" := VStr "Technology" ]}.

(** A client whose [info] holds a string under [trailingPE]. *)
Definition sample_client_string_ratio : client :=
  mkClient
    (fun _ => Ok None)
    (fun _ => Ok {[ "trailingPE" := VStr "Infinity" ]})
    (fun _ => Ok sample_financials)
    (fun _ => Ok empty_frame)
    (fun _ => Ok None)
    (fun _ => Ok None).

(** The line [j] of a statement: its cells, one per date. *)
Definition statement_line (f : frame) (j : nat) : list pyval :=
  (fun col => cell col j) <$> data f.

(** An exception that [format_number] raises on a cell. *)
Definition formatting_error (e : exn) : Prop :=
  e = OverflowError \/ e = TypeError "abs".

(** A client whose annual earnings hold text in the [Revenue] column. *)
Definition sample_client_text_revenue : client :=
  mkClient
    (fun _ => Ok None)
    (fun _ => Ok ∅)
    (fun _ => Ok sample_financials)
    (fun _ => Ok empty_frame)
    (fun _ => Ok (Some (mkFrame (Index [LInt 2023]) (Index [LStr "Revenue"])
                                [[VStr "n/a"]])))
    (fun _ => Ok None).




(** A client with a calendar, annual earnings with both columns and
    quarterly earnings with a [Revenue] column only. *)
Definition sample_client_with_earnings : client :=
  mkClient
    (fun _ => Ok None)
    (fun _ => Ok ∅)
    (fun _ => Ok sample_financials)
    (fun _ => Ok (mkFrame (Index [LInt 0])
                          (Index [LStr "Earnings Average"; LStr "Event"])
                          [[VNum (PyFloat (F64.literal 25 10))]; [VStr "Q1"]]))
    (fun _ => Ok (Some (mkFrame
                    (Index [LInt 2022; LInt 2023])
                    (Index [LStr "Revenue"; LStr "Earnings"])
                    [[VNum (PyInt 282836000000); VNum (PyInt 307394000000)];
                     [VNum (PyInt 59972000000); VNone]])))
    (fun _ => Ok (Some (mkFrame
                    (Index [LStr "3Q2023"])
                    (Index [LStr "Quarter"; LStr "Revenue"])
                    [[VStr "third"]; [VNum (PyInt 76693000000)]]))).


(** * Properties *)

(** ** Strings *)

Lemma length_append (s u : string) :
  String.length (s +:+ u) = (String.length s + String.length u)%nat.
Proof. induction s as [|c s IH]; simpl; [reflexivity | f_equal; exact IH]. Qed.

Lemma starts_ok_app (s u : string) : starts_ok s -> starts_ok (s +:+ u).
Proof. destruct s; simpl; [tauto | trivial]. Qed.

Lemma starts_ok_not_NA (s : string) : starts_ok s -> s <> "N/A".
Proof. destruct s; simpl; [tauto | congruence]. Qed.

Lemma starts_ok_dec (n : Z) : starts_ok (dec n).
Proof.
  unfold dec, NilZero.string_of_uint.
  destruct (N.to_uint (Z.to_N n)); simpl; discriminate.
Qed.

Lemma starts_ok_sign (s : bool) (u : string) :
  starts_ok u -> starts_ok (sign_str s +:+ u).
Proof. destruct s; simpl; [discriminate | trivial]. Qed.

Lemma starts_ok_decimal (p : nat) (n : Z) : starts_ok (decimal p n).
Proof. unfold decimal. apply starts_ok_app, starts_ok_dec. Qed.

Lemma starts_ok_fixed (p : nat) (x : float) : starts_ok (fixed p x).
Proof.
  destruct x as [s|s| |s m e]; simpl;
    try (apply starts_ok_sign; first [apply starts_ok_decimal | discriminate]).
  discriminate.
Qed.

Lemma starts_ok_pad (w : nat) (s : string) :
  starts_ok s -> starts_ok (pad_left w s).
Proof.
  unfold pad_left. destruct (w - String.length s)%nat; simpl;
    [trivial | discriminate].
Qed.

Lemma format_f_starts (w p : nat) (a : number) (s : string) :
  format_f w p a = Ok s -> starts_ok s.
Proof.
  unfold format_f. destruct (to_float a) as [x|e]; simpl; [|discriminate].
  intros [= <-]. apply starts_ok_pad, starts_ok_fixed.
Qed.

Lemma format_number_loop_starts (us : list string) (a : number) (s : string) :
  format_number_loop us a = Ok s -> starts_ok s.
Proof.
  revert a. induction us as [|u us IH]; intros a; simpl.
  - destruct (format_f 0 1 a) as [r|e] eqn:E; simpl; [|discriminate].
    intros [= <-]. eapply starts_ok_app, format_f_starts, E.
  - destruct (py_lt_float (py_abs a) f1000).
    + destruct (format_f 3 1 a) as [r|e] eqn:E; simpl; [|discriminate].
      intros [= <-]. eapply starts_ok_app, format_f_starts, E.
    + destruct (py_truediv_float a f1000) as [a'|e]; simpl; [|discriminate].
      apply IH.
Qed.

(** C4. Each of [format_number], [format_percentage] and [format_pe_ratio]
    returns ["N/A"] exactly when its input is [None]; zero is a present
    value and [format_number] renders it as ["0.0"]. *)
Theorem na_iff_missing (v : option number) :
  (format_number v = Ok "N/A" <-> v = None) /\
  (format_percentage v = Ok "N/A" <-> v = None) /\
  (format_pe_ratio v = Ok "N/A" <-> v = None) /\
  format_number (Some (PyInt 0)) = Ok "0.0" /\
  format_number (Some (PyFloat (S754_zero false))) = Ok "0.0".
Proof.
  repeat split; try reflexivity; try (intros ->; reflexivity).
  - destruct v as [a|]; [|reflexivity]. unfold format_number. intros H.
    apply format_number_loop_starts in H. now apply starts_ok_not_NA in H.
  - destruct v as [a|]; [|reflexivity]. unfold format_percentage.
    destruct (py_mul_int a 100) as [b|e]; simpl; [|discriminate].
    destruct (format_f 0 2 b) as [r|e] eqn:E; simpl; [|discriminate].
    intros [= H]. apply format_f_starts in E.
    apply (starts_ok_app _ "%") in E. now apply starts_ok_not_NA in E.
  - destruct v as [a|]; [|reflexivity]. unfold format_pe_ratio.
    destruct (format_f 0 2 a) as [r|e] eqn:E; simpl; [|discriminate].
    intros [= H]. apply format_f_starts in E.
    apply (starts_ok_app _ "X") in E. now apply starts_ok_not_NA in E.
Qed.

(** ** Totality *)

Lemma f1000_not_zero : F64.is_zero f1000 = false.
Proof. reflexivity. Qed.

Lemma int_lt_f1000 (n : Z) : int_lt_float n f1000 = (n <? 1000).
Proof.
  unfold f1000, int_lt_float, cond_Zopp.
  change (2 ^ Z.pos 43) with 8796093022208.
  destruct (Z.ltb_spec (n * 8796093022208) 8796093022208000),
    (Z.ltb_spec n 1000); try reflexivity; lia.
Qed.

Lemma threshold_above_1000 : 1000 < F64.overflow_threshold.
Proof. reflexivity. Qed.

Lemma int_to_float_returns (n : Z) :
  returns (int_to_float n) <-> Z.abs n < F64.overflow_threshold.
Proof.
  unfold int_to_float.
  destruct (Z.ltb_spec (Z.abs n) F64.overflow_threshold); simpl; [tauto|].
  split; [tauto | lia].
Qed.

Lemma int_to_float_100 : int_to_float 100 = Ok (F64.of_Z 100).
Proof. reflexivity. Qed.

Lemma py_truediv_float_1000 (x : float) :
  py_truediv_float (PyFloat x) f1000 = Ok (PyFloat (F64.div x f1000)).
Proof. reflexivity. Qed.

Lemma format_f_float (w p : nat) (x : float) :
  format_f w p (PyFloat x) = Ok (pad_left w (fixed p x)).
Proof. reflexivity. Qed.

Lemma format_number_loop_cons (u : string) (us : list string) (a : number) :
  format_number_loop (u :: us) a =
  if py_lt_float (py_abs a) f1000 then s ← format_f 3 1 a; Ok (s +:+ u)
  else a' ← py_truediv_float a f1000; format_number_loop us a'.
Proof. reflexivity. Qed.

Lemma py_truediv_int_1000 (n : Z) :
  py_truediv_float (PyInt n) f1000 =
  x ← int_to_float n; Ok (PyFloat (F64.div x f1000)).
Proof. reflexivity. Qed.

Lemma format_number_loop_float_returns (us : list string) (x : float) :
  returns (format_number_loop us (PyFloat x)).
Proof.
  revert x. induction us as [|u us IH]; intros x; simpl; [exact I|].
  destruct (F64.ltb (F64.abs x) f1000); [exact I | apply IH].
Qed.

Lemma format_number_int_returns (n : Z) :
  returns (format_number (Some (PyInt n))) <-> Z.abs n < F64.overflow_threshold.
Proof.
  pose proof threshold_above_1000 as T.
  unfold format_number, units. rewrite format_number_loop_cons.
  cbn [py_abs py_lt_float]. rewrite int_lt_f1000.
  destruct (Z.ltb_spec (Z.abs n) 1000) as [L|L].
  - unfold format_f, to_float, int_to_float.
    destruct (Z.ltb_spec (Z.abs n) F64.overflow_threshold); [|lia].
    cbn [mbind result_bind returns]. split; [lia | tauto].
  - rewrite py_truediv_int_1000. unfold int_to_float.
    destruct (Z.ltb_spec (Z.abs n) F64.overflow_threshold) as [B|B];
      cbn [mbind result_bind returns].
    + split; [tauto|]. intros _. apply format_number_loop_float_returns.
    + split; [tauto | lia].
Qed.

(** C5 (amended). The three formatters are functions of their argument
    alone, and each returns a string on [None], on every [float] (zero,
    negative, infinite and NaN included) and on every [int] whose
    conversion to [float] does not overflow; an [int] beyond that range
    makes them raise [OverflowError].  For [format_percentage] the integer
    converted is [number * 100]. *)
Theorem formatters_return_iff_convertible (v : option number) :
  (returns (format_number v) <-> convertible 1 v) /\
  (returns (format_percentage v) <-> convertible 100 v) /\
  (returns (format_pe_ratio v) <-> convertible 1 v).
Proof.
  destruct v as [[n|x]|]; unfold convertible.
  - rewrite Z.mul_1_r. split; [apply format_number_int_returns|]. split.
    + unfold format_percentage, py_mul_int. cbn [mbind result_bind].
      unfold format_f, to_float.
      pose proof (int_to_float_returns (n * 100)) as H.
      destruct (int_to_float (n * 100)); exact H.
    + unfold format_pe_ratio, format_f, to_float.
      pose proof (int_to_float_returns n) as H.
      destruct (int_to_float n); exact H.
  - split; [|split]; (split; [tauto|]); intros _.
    + apply format_number_loop_float_returns.
    + exact I.
    + exact I.
  - repeat split; exact I.
Qed.

(** C5 (counterexample). On the integer [10^400] each of the three
    formatters raises [OverflowError] instead of returning a string. *)
Lemma formatters_raise_on_huge_int :
  format_number (Some (PyInt (10 ^ 400))) = Raise OverflowError /\
  format_percentage (Some (PyInt (10 ^ 400))) = Raise OverflowError /\
  format_pe_ratio (Some (PyInt (10 ^ 400))) = Raise OverflowError.
Proof. repeat split; vm_compute; reflexivity. Qed.

(** ** Rendering with a fixed number of fractional digits *)

Lemma scaled_round_nearest (p : nat) (m : positive) (e : Z) :
  nearest_scaled p m e (scaled_round p m e).
Proof.
  unfold nearest_scaled, scaled_round.
  assert (Hnum : 0 < Z.pos m * 10 ^ Z.of_nat p)
    by (apply Z.mul_pos_pos; [lia | apply Z.pow_pos_nonneg; lia]).
  set (num := Z.pos m * 10 ^ Z.of_nat p) in *.
  destruct e as [|k|k].
  - split; [|reflexivity]. rewrite Z.pow_0_r. lia.
  - split; [|reflexivity].
    apply Z.mul_nonneg_nonneg; [lia | apply Z.pow_nonneg; lia].
  - assert (Hd : 0 < 2 ^ Z.pos k) by (apply Z.pow_pos_nonneg; lia).
    set (d := 2 ^ Z.pos k) in *. cbv zeta.
    pose proof (Z.div_mod num d ltac:(lia)) as E.
    pose proof (Z.mod_pos_bound num d Hd) as R.
    assert (Q : 0 <= num / d) by (apply Z.div_pos; lia).
    set (q := num / d) in *. set (r := num mod d) in *.
    rewrite (Z.mul_comm d q) in E.
    destruct (Z.compare_spec (2 * r) d) as [C|C|C].
    + destruct (Z.even q) eqn:Ev.
      * split; [lia|]. right. split; [lia | exact Ev].
      * split; [lia|]. right. split.
        -- replace ((q + 1) * d) with (q * d + d) by ring. lia.
        -- rewrite Z.add_1_r, Z.even_succ, <- Z.negb_even, Ev. reflexivity.
    + split; [lia|]. left. lia.
    + split; [lia|]. left.
      replace ((q + 1) * d) with (q * d + d) by ring. lia.
Qed.

Lemma fixed_2f (x : float) : rendered_2f x (fixed 2 x).
Proof.
  destruct x as [s|s| |s m e]; try reflexivity.
  exists (scaled_round 2 m e). split; [apply scaled_round_nearest | reflexivity].
Qed.

Lemma pad_left_0 (s : string) : pad_left 0 s = s.
Proof. reflexivity. Qed.

(** ** Integers that are doubles *)

Lemma iter_xO_digits (p k : positive) :
  digits2_pos (Pos.iter xO p k) = (digits2_pos p + k)%positive.
Proof.
  induction k as [|k IH] using Pos.peano_ind.
  - cbn. lia.
  - rewrite Pos.iter_succ. cbn [digits2_pos]. rewrite IH. lia.
Qed.

Lemma iter_xO_value (p k : positive) :
  Z.pos (Pos.iter xO p k) = Z.pos p * 2 ^ Z.pos k.
Proof.
  induction k as [|k IH] using Pos.peano_ind.
  - cbn. lia.
  - rewrite Pos.iter_succ, Pos2Z.inj_xO, IH, Pos2Z.inj_succ, Z.pow_succ_r by lia.
    ring.
Qed.

Lemma digits2_pos_lower (p : positive) :
  2 ^ (Z.pos (digits2_pos p) - 1) <= Z.pos p.
Proof.
  induction p as [p IH|p IH|]; cbn [digits2_pos];
    rewrite ?Pos2Z.inj_succ;
    try (replace (Z.succ (Z.pos (digits2_pos p)) - 1)
           with (Z.succ (Z.pos (digits2_pos p) - 1)) by lia;
         rewrite Z.pow_succ_r by lia; lia).
  cbn. lia.
Qed.

Lemma digits2_pos_53 (p : positive) :
  Z.pos p < 2 ^ 53 -> Z.pos (digits2_pos p) <= 53.
Proof.
  intros H. pose proof (digits2_pos_lower p) as L.
  destruct (Z_le_gt_dec (Z.pos (digits2_pos p)) 53) as [D|D]; [exact D|].
  assert (2 ^ 53 <= 2 ^ (Z.pos (digits2_pos p) - 1))
    by (apply Z.pow_le_mono_r; lia).
  lia.
Qed.

(** A mantissa of 53 bits with an exponent in range is left as it is. *)
Lemma binary_round_aux_exact (s : bool) (m : positive) (e : Z) :
  Z.pos (digits2_pos m) = 53 -> -1074 <= e <= 971 ->
  binary_round_aux F64.prec F64.emax s (Z.pos m) e loc_Exact =
  S754_finite s m e.
Proof.
  intros Hd He. unfold binary_round_aux, shr_fexp. cbn [Zdigits2].
  rewrite Hd. unfold fexp, emin, F64.prec, F64.emax.
  replace (Z.max (53 + e - 53) (3 - 1024 - 53) - e) with 0 by lia.
  cbn [shr shr_record_of_loc loc_of_shr_record shr_m round_nearest_even Zdigits2].
  rewrite Hd.
  replace (Z.max (53 + e - 53) (3 - 1024 - 53) - e) with 0 by lia.
  cbn [shr shr_record_of_loc shr_m].
  destruct (Z.leb_spec e (1024 - 53)); [reflexivity | lia].
Qed.

(** The double of a natural number below [2^53] has that number as its
    value: the mantissa is the number shifted to 53 bits. *)
Lemma binary_round_exact (s : bool) (p : positive) :
  Z.pos p < 2 ^ 53 ->
  exists (m : positive) (e : Z),
    binary_round F64.prec F64.emax s p 0 = S754_finite s m e /\
    (e = 0 /\ m = p \/
     exists k : positive, e = Z.neg k /\ Z.pos m = Z.pos p * 2 ^ Z.pos k).
Proof.
  intros Hp. pose proof (digits2_pos_53 p Hp) as Hd.
  unfold binary_round, shl_align, fexp, emin, F64.prec, F64.emax.
  replace (Z.max (Z.pos (digits2_pos p) + 0 - 53) (3 - 1024 - 53) - 0)
    with (Z.pos (digits2_pos p) - 53) by lia.
  replace (Z.max (Z.pos (digits2_pos p) + 0 - 53) (3 - 1024 - 53))
    with (Z.pos (digits2_pos p) - 53) by lia.
  destruct (Z.pos (digits2_pos p) - 53) as [|q|q] eqn:Eq; [| lia |].
  - exists p, 0. split; [|left; split; reflexivity].
    apply binary_round_aux_exact; lia.
  - exists (Pos.iter xO p q), (Z.neg q). split.
    + apply binary_round_aux_exact; [|lia].
      rewrite iter_xO_digits. lia.
    + right. exists q. split; [reflexivity | apply iter_xO_value].
Qed.

Lemma scaled_round_exact (p : nat) (m n : positive) (e : Z) :
  (e = 0 /\ m = n \/
   exists k : positive, e = Z.neg k /\ Z.pos m = Z.pos n * 2 ^ Z.pos k) ->
  scaled_round p m e = Z.pos n * 10 ^ Z.of_nat p.
Proof.
  intros [[-> ->]|(k & -> & Hm)]; unfold scaled_round.
  - rewrite Z.pow_0_r. lia.
  - cbv zeta. rewrite Hm.
    assert (Hd : 0 < 2 ^ Z.pos k) by (apply Z.pow_pos_nonneg; lia).
    replace (Z.pos n * 2 ^ Z.pos k * 10 ^ Z.of_nat p)
      with (Z.pos n * 10 ^ Z.of_nat p * 2 ^ Z.pos k) by ring.
    rewrite Z.mod_mul, Z.div_mul by lia.
    change (2 * 0) with 0. now destruct (Z.compare_spec 0 (2 ^ Z.pos k)); try lia.
Qed.

Lemma decimal_2_hundredfold (k : Z) :
  0 <= k -> decimal 2 (k * 100) = dec k +:+ ".00".
Proof.
  intros Hk. unfold decimal. cbn [frac_digits].
  change (10 ^ Z.of_nat 2) with 100.
  rewrite Z.div_mul by lia.
  replace (k * 100 / 10) with (k * 10)
    by (replace (k * 100) with (k * 10 * 10) by ring; now rewrite Z.div_mul).
  rewrite !Z.mod_mul by lia.
  replace (k * 100) with (k * 10 * 10) by ring. rewrite Z.mod_mul by lia.
  reflexivity.
Qed.

(** The rendering with two fractional digits of the double of an integer
    below [2^53] in magnitude: the integer itself and [.00]. *)
Lemma fixed_2_of_Z (n : Z) :
  Z.abs n < 2 ^ 53 -> fixed 2 (F64.of_Z n) = str_int n +:+ ".00".
Proof.
  intros Hn. unfold F64.of_Z, binary_normalize, str_int.
  destruct n as [|p|p]; [reflexivity| |].
  - destruct (binary_round_exact false p Hn) as (m & e & -> & Hme).
    cbn [fixed sign_str Z.ltb Z.compare Z.abs].
    rewrite (scaled_round_exact 2 m p e Hme).
    change (10 ^ Z.of_nat 2) with 100. now rewrite decimal_2_hundredfold.
  - destruct (binary_round_exact true p Hn) as (m & e & -> & Hme).
    cbn [fixed sign_str Z.ltb Z.compare Z.abs].
    rewrite (scaled_round_exact 2 m p e Hme).
    change (10 ^ Z.of_nat 2) with 100. now rewrite decimal_2_hundredfold.
Qed.

Lemma append_assoc (s u v : string) : (s +:+ u) +:+ v = s +:+ (u +:+ v).
Proof.
  induction s as [|c s IH]; [reflexivity|].
  change (String c ((s +:+ u) +:+ v) = String c (s +:+ (u +:+ v))).
  now rewrite IH.
Qed.

Lemma threshold_above_2_53 : 2 ^ 53 < F64.overflow_threshold.
Proof. reflexivity. Qed.

Lemma int_to_float_exact_range (n : Z) :
  Z.abs n < 2 ^ 53 -> int_to_float n = Ok (F64.of_Z n).
Proof.
  intros H. pose proof threshold_above_2_53. unfold int_to_float.
  destruct (Z.ltb_spec (Z.abs n) F64.overflow_threshold); [reflexivity | lia].
Qed.

Lemma int_to_float_overflow (n : Z) :
  F64.overflow_threshold <= Z.abs n -> int_to_float n = Raise OverflowError.
Proof.
  intros H. unfold int_to_float.
  destruct (Z.ltb_spec (Z.abs n) F64.overflow_threshold); [lia | reflexivity].
Qed.

(** [format(n, ".2f")] for an [int] below [2^53] in magnitude. *)
Lemma format_f_0_2_int_exact (n : Z) :
  Z.abs n < 2 ^ 53 -> format_f 0 2 (PyInt n) = Ok (str_int n +:+ ".00").
Proof.
  intros H. unfold format_f, to_float. rewrite int_to_float_exact_range by exact H.
  cbn [mbind result_bind]. now rewrite pad_left_0, fixed_2_of_Z.
Qed.

Lemma format_f_int_returns (w p : nat) (n : Z) :
  Z.abs n < F64.overflow_threshold -> returns (format_f w p (PyInt n)).
Proof.
  intros H. unfold format_f, to_float, int_to_float.
  destruct (Z.ltb_spec (Z.abs n) F64.overflow_threshold); [exact I | lia].
Qed.

Lemma format_f_int_overflow (w p : nat) (n : Z) :
  F64.overflow_threshold <= Z.abs n ->
  format_f w p (PyInt n) = Raise OverflowError.
Proof.
  intros H. unfold format_f, to_float. now rewrite int_to_float_overflow.
Qed.

(** C6 (amended). On a [float] [v], [format_percentage] returns the float
    product of [v] and [100], rendered with exactly two fractional digits,
    followed by ["%"]; nothing is clamped to the unit interval.  On an
    [int] the product is exact and is converted to [float] for rendering:
    below [2^53] in magnitude it is shown exactly, with [.00]; beyond, the
    float the conversion gives is rendered, which need not be the product;
    from [2^1024 - 2^970] on, the conversion raises [OverflowError]. *)
Theorem format_percentage_spec :
  (forall x : float, exists out,
     rendered_2f (F64.mul x (F64.of_Z 100)) out /\
     format_percentage (Some (PyFloat x)) = Ok (out +:+ "%")) /\
  (forall n : Z,
     match int_to_float (n * 100) with
     | Ok y => exists out,
         rendered_2f y out /\
         format_percentage (Some (PyInt n)) = Ok (out +:+ "%")
     | Raise e => format_percentage (Some (PyInt n)) = Raise e
     end) /\
  (forall n : Z,
     if Z.abs (n * 100) <? 2 ^ 53
     then format_percentage (Some (PyInt n)) = Ok (str_int (n * 100) +:+ ".00%")
     else True) /\
  (forall n : Z,
     if Z.abs (n * 100) <? F64.overflow_threshold
     then returns (format_percentage (Some (PyInt n)))
     else format_percentage (Some (PyInt n)) = Raise OverflowError) /\
  format_percentage (Some (PyFloat (F64.literal 1534 10000))) = Ok "15.34%" /\
  format_percentage (Some (PyFloat (F64.literal (-2) 100))) = Ok "-2.00%" /\
  format_percentage (Some (PyFloat (F64.literal 25 10))) = Ok "250.00%" /\
  format_percentage (Some (PyInt 3)) = Ok "300.00%" /\
  format_percentage (Some (PyInt (-1))) = Ok "-100.00%" /\
  format_percentage (Some (PyInt 90071992547409931)) =
    Ok "9007199254740993024.00%".
Proof.
  split; [|split; [|split; [|split; [|repeat split; vm_compute; reflexivity]]]].
  - intros x. exists (fixed 2 (F64.mul x (F64.of_Z 100))).
    split; [apply fixed_2f | reflexivity].
  - intros n. unfold format_percentage, py_mul_int.
    cbn [mbind result_bind]. unfold format_f, to_float.
    destruct (int_to_float (n * 100)) as [y|e]; cbn [mbind result_bind].
    + exists (fixed 2 y). split; [apply fixed_2f | reflexivity].
    + reflexivity.
  - intros n. destruct (Z.ltb_spec (Z.abs (n * 100)) (2 ^ 53)) as [H|H];
      [|exact I].
    unfold format_percentage, py_mul_int. cbn [mbind result_bind].
    rewrite format_f_0_2_int_exact by exact H. cbn [mbind result_bind].
    now rewrite append_assoc.
  - intros n.
    destruct (Z.ltb_spec (Z.abs (n * 100)) F64.overflow_threshold) as [H|H];
      unfold format_percentage, py_mul_int; cbn [mbind result_bind].
    + pose proof (format_f_int_returns 0 2 (n * 100) H) as R.
      now destruct (format_f 0 2 (PyInt (n * 100))).
    + now rewrite format_f_int_overflow.
Qed.

(** C6 (counterexample). For the integer [90071992547409931] the exact
    product with [100], rendered with two fractional digits, would be
    [9007199254740993100.00%]; [format_percentage] gives another number.
    For [10^400] it returns no string. *)
Lemma format_percentage_int_not_exact :
  format_percentage (Some (PyInt 90071992547409931)) =
    Ok "9007199254740993024.00%" /\
  str_int (90071992547409931 * 100) +:+ ".00%" = "9007199254740993100.00%" /\
  format_percentage (Some (PyInt 90071992547409931)) <>
    Ok (str_int (90071992547409931 * 100) +:+ ".00%") /\
  format_percentage (Some (PyInt (10 ^ 400))) = Raise OverflowError.
Proof. vm_compute. repeat split; congruence. Qed.

(** C7 (amended). On a [float] [v], [format_pe_ratio] returns [v] rendered
    with exactly two fractional digits, followed by ["X"].  An [int] is
    converted to [float] for rendering: below [2^53] in magnitude it is
    shown exactly, with [.00]; beyond, the float the conversion gives is
    rendered, which need not be the integer; from [2^1024 - 2^970] on, the
    conversion raises [OverflowError]. *)
Theorem format_pe_ratio_spec :
  (forall x : float, exists out,
     rendered_2f x out /\ format_pe_ratio (Some (PyFloat x)) = Ok (out +:+ "X")) /\
  (forall n : Z,
     match int_to_float n with
     | Ok y => exists out,
         rendered_2f y out /\
         format_pe_ratio (Some (PyInt n)) = Ok (out +:+ "X")
     | Raise e => format_pe_ratio (Some (PyInt n)) = Raise e
     end) /\
  (forall n : Z,
     if Z.abs n <? 2 ^ 53
     then format_pe_ratio (Some (PyInt n)) = Ok (str_int n +:+ ".00X")
     else True) /\
  (forall n : Z,
     if Z.abs n <? F64.overflow_threshold
     then returns (format_pe_ratio (Some (PyInt n)))
     else format_pe_ratio (Some (PyInt n)) = Raise OverflowError) /\
  format_pe_ratio (Some (PyFloat (F64.literal 23456 1000))) = Ok "23.46X" /\
  format_pe_ratio (Some (PyInt 23)) = Ok "23.00X" /\
  format_pe_ratio (Some (PyInt (-7))) = Ok "-7.00X" /\
  format_pe_ratio (Some (PyInt (2 ^ 53 + 1))) = Ok "9007199254740992.00X".
Proof.
  split; [|split; [|split; [|split; [|repeat split; vm_compute; reflexivity]]]].
  - intros x. exists (fixed 2 x). split; [apply fixed_2f | reflexivity].
  - intros n. unfold format_pe_ratio, format_f, to_float.
    destruct (int_to_float n) as [y|e]; cbn [mbind result_bind].
    + exists (fixed 2 y). split; [apply fixed_2f | reflexivity].
    + reflexivity.
  - intros n. destruct (Z.ltb_spec (Z.abs n) (2 ^ 53)) as [H|H]; [|exact I].
    unfold format_pe_ratio. rewrite format_f_0_2_int_exact by exact H.
    cbn [mbind result_bind]. now rewrite append_assoc.
  - intros n.
    destruct (Z.ltb_spec (Z.abs n) F64.overflow_threshold) as [H|H];
      unfold format_pe_ratio.
    + pose proof (format_f_int_returns 0 2 n H) as R.
      now destruct (format_f 0 2 (PyInt n)).
    + now rewrite format_f_int_overflow.
Qed.

(** C7 (counterexample). The integer [2^53 + 1] rendered with two
    fractional digits is [9007199254740993.00X]; [format_pe_ratio] gives
    another number.  For [10^400] it returns no string. *)
Lemma format_pe_ratio_int_not_exact :
  format_pe_ratio (Some (PyInt (2 ^ 53 + 1))) = Ok "9007199254740992.00X" /\
  str_int (2 ^ 53 + 1) +:+ ".00X" = "9007199254740993.00X" /\
  format_pe_ratio (Some (PyInt (2 ^ 53 + 1))) <>
    Ok (str_int (2 ^ 53 + 1) +:+ ".00X") /\
  format_pe_ratio (Some (PyInt (10 ^ 400))) = Raise OverflowError.
Proof. vm_compute. repeat split; congruence. Qed.

(** C10. The double written [999.97] is strictly below [1000.0], so
    [format_number] returns in the first pass of its loop, with the empty
    suffix; rounding to one fractional digit then gives ["1000.0"]. *)
Theorem format_number_renders_1000_below_1000 :
  let x := F64.literal 99997 100 in
  F64.well_formed x = true /\
  py_lt_float (py_abs (PyFloat x)) f1000 = true /\
  format_number (Some (PyFloat x)) = Ok "1000.0" /\
  format_number (Some (PyFloat (F64.opp x))) = Ok "-1000.0".
Proof. repeat split; vm_compute; reflexivity. Qed.

(** ** The exceptions of the formatters *)

Lemma int_to_float_raises (n : Z) (e : exn) :
  int_to_float n = Raise e -> e = OverflowError.
Proof.
  unfold int_to_float. destruct (Z.abs n <? F64.overflow_threshold);
    [discriminate | now intros [= <-]].
Qed.

Lemma format_f_raises (w p : nat) (a : number) (e : exn) :
  format_f w p a = Raise e -> e = OverflowError.
Proof.
  unfold format_f. destruct a as [n|x]; cbn [to_float]; [|discriminate].
  destruct (int_to_float n) as [x|e'] eqn:E; cbn [mbind result_bind];
    [discriminate|].
  intros [= <-]. exact (int_to_float_raises n e' E).
Qed.

Lemma py_truediv_1000_raises (a : number) (e : exn) :
  py_truediv_float a f1000 = Raise e -> e = OverflowError.
Proof.
  destruct a as [n|x]; [|rewrite py_truediv_float_1000; discriminate].
  rewrite py_truediv_int_1000.
  destruct (int_to_float n) as [x|e'] eqn:E; cbn [mbind result_bind];
    [discriminate|].
  intros [= <-]. exact (int_to_float_raises n e' E).
Qed.

Lemma format_number_loop_raises (us : list string) (a : number) (e : exn) :
  format_number_loop us a = Raise e -> e = OverflowError.
Proof.
  revert a. induction us as [|u us IH]; intros a.
  - cbn [format_number_loop].
    destruct (format_f 0 1 a) as [s|e'] eqn:E; cbn [mbind result_bind];
      [discriminate|].
    intros [= <-]. exact (format_f_raises _ _ _ _ E).
  - rewrite format_number_loop_cons. destruct (py_lt_float (py_abs a) f1000).
    + destruct (format_f 3 1 a) as [s|e'] eqn:E; cbn [mbind result_bind];
        [discriminate|].
      intros [= <-]. exact (format_f_raises _ _ _ _ E).
    + destruct (py_truediv_float a f1000) as [a'|e'] eqn:E;
        cbn [mbind result_bind]; [apply IH|].
      intros [= <-]. exact (py_truediv_1000_raises _ _ E).
Qed.

(** ** Sign symmetry of binary64 rounding *)

Section Rounding.

Lemma shr_1_nonneg (mrs : shr_record) :
  0 <= shr_m mrs -> 0 <= shr_m (shr_1 mrs).
Proof.
  destruct mrs as [m r s]. destruct m as [|[p|p|]|[p|p|]]; simpl; lia.
Qed.

Lemma iter_shr_1_nonneg (p : positive) (mrs : shr_record) :
  0 <= shr_m mrs -> 0 <= shr_m (SpecFloat.iter_pos shr_1 p mrs).
Proof.
  revert mrs. induction p as [p IH|p IH|]; intros mrs H; simpl.
  - apply IH, IH, shr_1_nonneg, H.
  - apply IH, IH, H.
  - apply shr_1_nonneg, H.
Qed.

Lemma shr_record_of_loc_m (m : Z) (l : location) :
  shr_m (shr_record_of_loc m l) = m.
Proof. destruct l as [|[]]; reflexivity. Qed.

Lemma shr_fexp_nonneg (m e : Z) (l : location) :
  0 <= m -> 0 <= shr_m (fst (shr_fexp F64.prec F64.emax m e l)).
Proof.
  intros H. unfold shr_fexp, shr.
  destruct (fexp F64.prec F64.emax (Zdigits2 m + e) - e) as [|p|p];
    cbn [fst]; try (rewrite shr_record_of_loc_m; exact H).
  apply iter_shr_1_nonneg. rewrite shr_record_of_loc_m. exact H.
Qed.

Lemma round_nearest_even_nonneg (m : Z) (l : location) :
  0 <= m -> 0 <= round_nearest_even m l.
Proof.
  intros H. destruct l as [|[]]; simpl; try lia. destruct (Z.even m); lia.
Qed.

Lemma binary_round_aux_sign (s : bool) (m e : Z) (l : location) :
  0 <= m -> has_sign s (binary_round_aux F64.prec F64.emax s m e l).
Proof.
  intros H. unfold binary_round_aux.
  pose proof (shr_fexp_nonneg m e l H) as H1.
  destruct (shr_fexp F64.prec F64.emax m e l) as [mrs' e']. cbn [fst] in H1.
  pose proof (shr_fexp_nonneg _ e' loc_Exact
                (round_nearest_even_nonneg _ (loc_of_shr_record mrs') H1)) as H2.
  destruct (shr_fexp F64.prec F64.emax _ e' loc_Exact) as [mrs'' e''].
  cbn [fst] in H2.
  destruct (shr_m mrs'') as [|q|q]; [reflexivity | | lia].
  destruct (e'' <=? F64.emax - F64.prec); reflexivity.
Qed.

Lemma binary_round_aux_opp (s : bool) (m e : Z) (l : location) :
  binary_round_aux F64.prec F64.emax (negb s) m e l =
  SFopp (binary_round_aux F64.prec F64.emax s m e l).
Proof.
  unfold binary_round_aux.
  destruct (shr_fexp F64.prec F64.emax m e l) as [mrs' e'].
  destruct (shr_fexp F64.prec F64.emax _ e' loc_Exact) as [mrs'' e''].
  destruct (shr_m mrs'') as [|q|q]; try reflexivity.
  destruct (e'' <=? F64.emax - F64.prec); reflexivity.
Qed.

End Rounding.

Lemma abs_opp (x : float) : F64.abs (F64.opp x) = F64.abs x.
Proof. destruct x; reflexivity. Qed.

Lemma div_opp (x y : float) :
  F64.div (F64.opp x) y = F64.opp (F64.div x y).
Proof.
  unfold F64.div, F64.opp.
  destruct x as [sx|sx| |sx mx ex], y as [sy|sy| |sy my ey];
    try reflexivity; cbn [SFopp SFdiv];
    try (now destruct sx, sy).
  destruct (SFdiv_core_binary F64.prec F64.emax (Z.pos mx) ex (Z.pos my) ey)
    as [[mz ez] lz].
  replace (xorb (negb sx) sy) with (negb (xorb sx sy)) by now destruct sx, sy.
  apply binary_round_aux_opp.
Qed.

Lemma div_core_nonneg (mx my : positive) (ex ey : Z) :
  0 <= fst (fst (SFdiv_core_binary F64.prec F64.emax (Z.pos mx) ex (Z.pos my) ey)).
Proof.
  unfold SFdiv_core_binary. cbv zeta.
  set (s := _ - _ - Z.min _ _).
  set (m' := match s with Z0 => Z.pos mx | Z.pos _ => Z.shiftl (Z.pos mx) s
             | Z.neg _ => 0 end).
  assert (Hm : 0 <= m').
  { subst m'. destruct s; [lia | | lia]. apply Z.shiftl_nonneg. lia. }
  pose proof (Z.div_pos m' (Z.pos my) Hm ltac:(lia)) as Q.
  unfold Z.div in Q. destruct (Z.div_eucl m' (Z.pos my)) as [q r]. exact Q.
Qed.

Lemma div_sign (x : float) :
  has_sign false x -> has_sign false (F64.div x f1000).
Proof.
  unfold F64.div, f1000. destruct x as [s|s| |s m e]; cbn [has_sign SFdiv];
    try tauto; try (intros ->; reflexivity).
  intros ->.
  pose proof (div_core_nonneg m 8796093022208000 e (-43)) as H.
  destruct (SFdiv_core_binary _ _ _ _ _ _) as [[mz ez] lz]. cbn [fst] in H.
  apply (binary_round_aux_sign (xorb false false)), H.
Qed.

Lemma of_Z_opp (n : Z) : 0 < n -> F64.of_Z (- n) = F64.opp (F64.of_Z n).
Proof.
  destruct n as [|p|p]; try lia. intros _.
  change (- Z.pos p) with (Z.neg p).
  unfold F64.of_Z, F64.opp, binary_normalize, binary_round.
  destruct (shl_align p 0 _) as [mz ez]. apply (binary_round_aux_opp false).
Qed.

Lemma of_Z_sign (n : Z) : 0 < n -> has_sign false (F64.of_Z n).
Proof.
  destruct n as [|p|p]; try lia. intros _.
  unfold F64.of_Z, binary_normalize, binary_round.
  destruct (shl_align p 0 _) as [mz ez]. apply binary_round_aux_sign. lia.
Qed.

Lemma positive_float_sign (x : float) :
  F64.ltb (S754_zero false) x = true -> has_sign false x.
Proof.
  unfold F64.ltb, SFltb.
  destruct x as [s|s| |s m e]; simpl; try discriminate; now destruct s.
Qed.

(** ** The sign in the rendering *)

Lemma fixed_opp (p : nat) (x : float) :
  has_sign false x -> fixed p (F64.opp x) = String "-"%char (fixed p x).
Proof. destruct x as [s|s| |s m e]; simpl; try tauto; intros ->; reflexivity. Qed.

Lemma dec_length (n : Z) : (1 <= String.length (dec n))%nat.
Proof.
  pose proof (starts_ok_dec n) as H.
  destruct (dec n); simpl in *; [tauto | lia].
Qed.

Lemma decimal_1_length (n : Z) : (3 <= String.length (decimal 1 n))%nat.
Proof.
  unfold decimal. rewrite length_append. pose proof (dec_length (n / 10 ^ Z.of_nat 1)).
  simpl String.length. lia.
Qed.

Lemma fixed_1_length (x : float) : (3 <= String.length (fixed 1 x))%nat.
Proof.
  destruct x as [s|s| |s m e]; cbn [fixed].
  - rewrite length_append. pose proof (decimal_1_length 0). lia.
  - destruct s; simpl; lia.
  - simpl; lia.
  - rewrite length_append. pose proof (decimal_1_length (scaled_round 1 m e)). lia.
Qed.

Lemma pad_left_fits (w : nat) (s : string) :
  (w <= String.length s)%nat -> pad_left w s = s.
Proof.
  intros H. unfold pad_left.
  replace (w - String.length s)%nat with 0%nat by lia. reflexivity.
Qed.

(** The field of width 3 never pads a rendering with one fractional digit. *)
Lemma pad_left_3_fixed_1 (x : float) : pad_left 3 (fixed 1 x) = fixed 1 x.
Proof. apply pad_left_fits, fixed_1_length. Qed.

Lemma format_f_3_1_opp (x : float) :
  has_sign false x ->
  format_f 3 1 (PyFloat (F64.opp x)) = String "-"%char <$> format_f 3 1 (PyFloat x).
Proof.
  intros H. rewrite !format_f_float, fixed_opp by exact H.
  rewrite pad_left_3_fixed_1. rewrite pad_left_fits; [reflexivity|].
  pose proof (fixed_1_length x). simpl String.length. lia.
Qed.

Lemma format_number_loop_opp (us : list string) (x : float) :
  has_sign false x ->
  format_number_loop us (PyFloat (F64.opp x)) =
  String "-"%char <$> format_number_loop us (PyFloat x).
Proof.
  revert x. induction us as [|u us IH]; intros x H.
  - cbn [format_number_loop]. rewrite !format_f_float, !pad_left_0, fixed_opp by exact H.
    reflexivity.
  - rewrite !format_number_loop_cons. cbn [py_abs py_lt_float].
    rewrite abs_opp. destruct (F64.ltb (F64.abs x) f1000).
    + rewrite format_f_3_1_opp by exact H. rewrite format_f_float. reflexivity.
    + rewrite !py_truediv_float_1000. cbn [mbind result_bind].
      rewrite div_opp. apply IH, div_sign, H.
Qed.

(** C8 (amended). For a [float] above zero, and for an [int] above zero
    that converts to [float], [format_number] returns a string, and on the
    negation it returns the same string with ["-"] in front; for an [int]
    beyond the range of [float] it raises [OverflowError] on both.  The
    loop test, taken on the absolute value, is the same for both signs.
    [5000] gives ["5.0K"] and [-5000] gives ["-5.0K"]. *)
Theorem format_number_sign (a : number) :
  positive_number a ->
  match format_number (Some a) with
  | Ok s => format_number (Some (py_neg a)) = Ok (String "-"%char s)
  | Raise e =>
      e = OverflowError /\ format_number (Some (py_neg a)) = Raise OverflowError
  end /\
  (returns (format_number (Some a)) <-> convertible 1 (Some a)) /\
  format_number (Some (py_neg a)) = String "-"%char <$> format_number (Some a) /\
  below_1000 (py_neg a) = below_1000 a /\
  format_number (Some (PyInt 5000)) = Ok "5.0K" /\
  format_number (Some (py_neg (PyInt 5000))) = Ok "-5.0K" /\
  format_number (Some (PyFloat (F64.literal 15 10))) = Ok "1.5" /\
  format_number (Some (py_neg (PyFloat (F64.literal 15 10)))) = Ok "-1.5".
Proof.
  intros Hpos.
  assert (Heq : format_number (Some (py_neg a)) =
                String "-"%char <$> format_number (Some a)).
  { destruct a as [n|x]; cbn [positive_number] in Hpos.
    - unfold format_number, units. rewrite !format_number_loop_cons.
      cbn [py_neg py_abs py_lt_float]. rewrite Z.abs_opp, int_lt_f1000.
      destruct (Z.abs n <? 1000).
      + unfold format_f, to_float, int_to_float. rewrite Z.abs_opp.
        destruct (Z.abs n <? F64.overflow_threshold); [|reflexivity].
        cbn [mbind result_bind fmap result_fmap].
        rewrite of_Z_opp, fixed_opp by auto using of_Z_sign.
        rewrite pad_left_3_fixed_1. rewrite pad_left_fits; [reflexivity|].
        pose proof (fixed_1_length (F64.of_Z n)). simpl String.length. lia.
      + rewrite !py_truediv_int_1000. unfold int_to_float. rewrite Z.abs_opp.
        destruct (Z.abs n <? F64.overflow_threshold); [|reflexivity].
        cbn [mbind result_bind]. rewrite of_Z_opp, div_opp by exact Hpos.
        apply format_number_loop_opp, div_sign, of_Z_sign, Hpos.
    - apply format_number_loop_opp, positive_float_sign, Hpos. }
  split; [|split; [|split; [exact Heq|split]]].
  - rewrite Heq. destruct (format_number (Some a)) as [s|e] eqn:E;
      [reflexivity|].
    pose proof (format_number_loop_raises units a e E) as ->.
    split; reflexivity.
  - destruct a as [n|x]; unfold convertible.
    + rewrite Z.mul_1_r. apply format_number_int_returns.
    + split; [tauto|]. intros _. apply format_number_loop_float_returns.
  - destruct a as [n|x]; unfold below_1000; cbn [py_neg py_abs];
      [now rewrite Z.abs_opp | now rewrite abs_opp].
  - repeat split; vm_compute; reflexivity.
Qed.

(** C8 (witness). [format_number(-5000)] against [format_number(5000)]. *)
Lemma format_number_sign_witness :
  match format_number (Some (PyInt 5000)) with
  | Ok s => format_number (Some (py_neg (PyInt 5000))) = Ok (String "-"%char s)
  | Raise e =>
      e = OverflowError /\
      format_number (Some (py_neg (PyInt 5000))) = Raise OverflowError
  end /\
  (returns (format_number (Some (PyInt 5000))) <->
   convertible 1 (Some (PyInt 5000))) /\
  format_number (Some (py_neg (PyInt 5000))) =
    String "-"%char <$> format_number (Some (PyInt 5000)) /\
  below_1000 (py_neg (PyInt 5000)) = below_1000 (PyInt 5000) /\
  format_number (Some (PyInt 5000)) = Ok "5.0K" /\
  format_number (Some (py_neg (PyInt 5000))) = Ok "-5.0K" /\
  format_number (Some (PyFloat (F64.literal 15 10))) = Ok "1.5" /\
  format_number (Some (py_neg (PyFloat (F64.literal 15 10)))) = Ok "-1.5".
Proof. apply (format_number_sign (PyInt 5000)). reflexivity. Defined.

(** C8 (counterexample). For the positive integer [10^400],
    [format_number] returns no string, neither on it nor on its negation:
    both calls raise [OverflowError]. *)
Lemma format_number_sign_no_string :
  positive_number (PyInt (10 ^ 400)) /\
  format_number (Some (PyInt (10 ^ 400))) = Raise OverflowError /\
  format_number (Some (py_neg (PyInt (10 ^ 400)))) = Raise OverflowError.
Proof. repeat split; vm_compute; reflexivity. Qed.

(** ** The chart link *)

(** C9. The chart link is the ticker between two fixed strings, whatever
    the ticker: nothing is escaped or transformed.  [display_finviz_chart]
    puts that link in the image and in the caption it displays, and never
    raises. *)
Theorem finviz_url_template :
  exists p s : string,
    p = "https://finviz.com/chart.ashx?t=" /\
    s = "&ty=c&ta=st_1,ta_4&p=d&s=l" /\
    forall ticker : string,
      finviz_url ticker = p +:+ ticker +:+ s /\
      display_finviz_chart ticker =
        ([Header "Finviz Chart Viewer";
          Markdown (chart_image_html (p +:+ ticker +:+ s));
          Markdown (chart_caption_html (p +:+ ticker +:+ s) ticker)], Ok tt).
Proof.
  exists finviz_prefix, finviz_suffix. repeat split; reflexivity.
Qed.

Lemma finviz_url_fixed_parts (ticker : string) :
  finviz_url ticker = finviz_prefix +:+ ticker +:+ finviz_suffix.
Proof. reflexivity. Qed.

Example finviz_url_colon :
  finviz_url "FRA:AIR" =
  "https://finviz.com/chart.ashx?t=FRA:AIR&ty=c&ta=st_1,ta_4&p=d&s=l".
Proof. reflexivity. Qed.

(** ** The loop of [format_number], pass by pass *)

Lemma scaled_S (k : nat) (a : number) :
  scaled (S k) a = a' ← py_truediv_float a f1000; scaled k a'.
Proof. reflexivity. Qed.

(** When every test of the loop fails, the value rendered has been divided
    once per suffix: five times for the five suffixes of [units]. *)
Lemma format_number_loop_falls_through (us : list string) (a : number) :
  (forall j y, (j < length us)%nat -> scaled j a = Ok y -> below_1000 y = false) ->
  format_number_loop us a =
  x ← scaled (length us) a; render_with_suffix x "T".
Proof.
  revert a. induction us as [|u us IH]; intros a H; [reflexivity|].
  rewrite format_number_loop_cons. cbn [length]. rewrite scaled_S.
  fold (below_1000 a). rewrite (H 0%nat a) by first [reflexivity | cbn; lia].
  destruct (py_truediv_float a f1000) as [a'|e] eqn:E;
    cbn [mbind result_bind]; [|reflexivity].
  apply IH. intros j y Hj Hy. apply (H (S j) y); [cbn; lia|].
  rewrite scaled_S, E. exact Hy.
Qed.

(** When the test first succeeds in pass [k], the value rendered has been
    divided [k] times and carries the suffix of that pass. *)
Lemma format_number_loop_stops (us : list string) (a x : number) (k : nat)
    (u : string) :
  us !! k = Some u ->
  scaled k a = Ok x ->
  (forall j y, (j < k)%nat -> scaled j a = Ok y -> below_1000 y = false) ->
  below_1000 x = true ->
  format_number_loop us a = s ← format_f 3 1 x; Ok (s +:+ u).
Proof.
  revert a k. induction us as [|u0 us IH]; intros a k Hu Hx Hlt Hk;
    [discriminate|].
  rewrite format_number_loop_cons. fold (below_1000 a). destruct k as [|k].
  - cbn in Hu, Hx. injection Hu as ->. injection Hx as ->.
    rewrite Hk. reflexivity.
  - rewrite (Hlt 0%nat a) by first [reflexivity | cbn; lia].
    rewrite scaled_S in Hx.
    destruct (py_truediv_float a f1000) as [a'|e] eqn:E;
      cbn [mbind result_bind] in Hx |- *; [|discriminate].
    apply (IH a' k); [exact Hu | exact Hx | | exact Hk].
    intros j y Hj Hy. apply (Hlt (S j) y); [lia|].
    rewrite scaled_S, E. exact Hy.
Qed.

Example format_number_999 : format_number (Some (PyInt 999)) = Ok "999.0".
Proof. vm_compute. reflexivity. Qed.

Example format_number_1000 : format_number (Some (PyInt 1000)) = Ok "1.0K".
Proof. vm_compute. reflexivity. Qed.

Example format_number_1500000 :
  format_number (Some (PyInt 1500000)) = Ok "1.5M".
Proof. vm_compute. reflexivity. Qed.

Example format_number_2340000000 :
  format_number (Some (PyInt 2340000000)) = Ok "2.3B".
Proof. vm_compute. reflexivity. Qed.

Example format_number_minus_5000 :
  format_number (Some (PyInt (-5000))) = Ok "-5.0K".
Proof. vm_compute. reflexivity. Qed.

Example format_number_nan : format_number (Some (PyFloat S754_nan)) = Ok "nanT".
Proof. vm_compute. reflexivity. Qed.

(** C1. At [10^15] every test of the loop fails and the loop has divided
    five times when it ends, so [format_number] renders [10^15 / 10^15]
    as ["1.0T"]; the value scaled by [10^12] is ["1000.0T"]. *)
Theorem format_number_saturation_at_1e15 :
  format_number (Some (PyInt (10 ^ 15))) = Ok "1.0T" /\
  format_saturated (PyInt (10 ^ 15)) = Ok "1000.0T" /\
  format_number (Some (PyFloat (F64.of_Z (25 * 10 ^ 14)))) = Ok "2.5T" /\
  format_saturated (PyFloat (F64.of_Z (25 * 10 ^ 14))) = Ok "2500.0T" /\
  format_number (Some (PyInt (10 ^ 15))) =
    (x ← scaled 5 (PyInt (10 ^ 15)); render_with_suffix x "T").
Proof. repeat split; vm_compute; reflexivity. Qed.

(** C3. At [-3 * 10^15] the loop of [format_number] divides a fifth time
    and returns ["-3.0T"]; with at most four divisions the result is
    ["-3000.0T"]. *)
Theorem format_number_fifth_division :
  format_number (Some (PyInt (-3 * 10 ^ 15))) = Ok "-3.0T" /\
  format_magnitude (Some (PyInt (-3 * 10 ^ 15))) = Ok "-3000.0T" /\
  scaled 4 (PyInt (-3 * 10 ^ 15)) = Ok (PyFloat (F64.of_Z (-3000))) /\
  scaled 5 (PyInt (-3 * 10 ^ 15)) = Ok (PyFloat (F64.of_Z (-3))).
Proof. repeat split; vm_compute; reflexivity. Qed.

(** ** What a run displays *)

Lemma ui_bind_out {A B : Type} (m : ui A) (f : A -> ui B) :
  (m ≫= f).1 = m.1 ++ match m.2 with Ok a => (f a).1 | Raise _ => [] end.
Proof.
  destruct m as [out [a|e]]; cbn [mbind ui_bind fst snd].
  - destruct (f a); reflexivity.
  - now rewrite app_nil_r.
Qed.

Lemma ui_bind_result {A B : Type} (m : ui A) (f : A -> ui B) :
  (m ≫= f).2 = match m.2 with Ok a => (f a).2 | Raise e => Raise e end.
Proof.
  destruct m as [out [a|e]]; cbn [mbind ui_bind fst snd]; [|reflexivity].
  destruct (f a); reflexivity.
Qed.

Lemma raises_bind {A B : Type} (m : ui A) (f : A -> ui B) :
  raises (m ≫= f) = match m.2 with Ok a => raises (f a) | Raise _ => true end.
Proof. unfold raises. rewrite ui_bind_result. now destruct m.2. Qed.

Lemma headings_app (a b : list element) :
  headings (a ++ b) = headings a ++ headings b.
Proof. apply omap_app. Qed.

Lemma separators_app (a b : list element) :
  separators (a ++ b) = (separators a + separators b)%nat.
Proof. unfold separators. now rewrite filter_app, length_app. Qed.


Lemma plain_nil : plain [].
Proof. split; reflexivity. Qed.

Lemma plain_app (a b : list element) : plain a -> plain b -> plain (a ++ b).
Proof.
  intros [Ha Sa] [Hb Sb]. split.
  - now rewrite headings_app, Ha, Hb.
  - now rewrite separators_app, Sa, Sb.
Qed.

Lemma plain_call {A : Type} (r : result A) : plain (call r).1.
Proof. apply plain_nil. Qed.

Lemma plain_ret {A : Type} (a : A) : plain (mret (M := ui) a).1.
Proof. apply plain_nil. Qed.

Lemma plain_emit (e : element) :
  heading_of e = None -> is_separator e = false -> plain (emit e).1.
Proof.
  intros H S. split; unfold emit; cbn [fst].
  - unfold headings. cbn. now rewrite H.
  - unfold separators. rewrite filter_cons.
    destruct (decide (is_separator e = true)); [congruence | reflexivity].
Qed.

Lemma plain_bind {A B : Type} (m : ui A) (f : A -> ui B) :
  plain m.1 -> (forall a, plain (f a).1) -> plain (m ≫= f).1.
Proof.
  intros Hm Hf. rewrite ui_bind_out. apply plain_app; [exact Hm|].
  destruct m.2; [apply Hf | apply plain_nil].
Qed.

Create HintDb plain.
#[local] Hint Resolve plain_nil plain_call plain_ret : plain.
#[local] Hint Extern 1 (plain (emit _).1) =>
  apply plain_emit; reflexivity : plain.
#[local] Hint Extern 2 (plain (_ ≫= _).1) =>
  apply plain_bind; [|intros] : plain.

Section Run.

Variable float_repr : float -> string.
Variable yf : client.

Lemma plain_display_finviz_chart (ticker : string) :
  plain (display_finviz_chart ticker).1.
Proof. unfold display_finviz_chart. auto 10 with plain. Qed.

Lemma plain_display_stock_info (ticker : string) :
  plain (display_stock_info float_repr yf ticker).1.
Proof. unfold display_stock_info. auto 40 with plain. Qed.

Lemma plain_display_financials (ticker : string) :
  plain (display_financials yf ticker).1.
Proof. unfold display_financials. auto 20 with plain. Qed.

Lemma plain_show_if_present (f : option frame) : plain (show_if_present f).1.
Proof. destruct f; cbn [show_if_present]; auto with plain. Qed.

Lemma plain_display_calendar_and_expectations (ticker : string) :
  plain (display_calendar_and_expectations yf ticker).1.
Proof.
  unfold display_calendar_and_expectations.
  auto 30 using plain_show_if_present with plain.
Qed.

Lemma plain_display_analyst_rating (ticker : string) :
  plain (display_analyst_rating yf ticker).1.
Proof.
  unfold display_analyst_rating. apply plain_bind; [apply plain_call|].
  intros [r|]; auto with plain.
Qed.


Lemma closes_separator : closes (emit (Write "---")).
Proof. split; reflexivity. Qed.

Lemma closes_bind {A : Type} (m : ui A) (f : A -> ui unit) :
  plain m.1 -> (forall a, closes (f a)) -> closes (m ≫= f).
Proof.
  intros [Hh Hs] Hf. unfold closes.
  rewrite ui_bind_out, raises_bind, headings_app, separators_app, Hh, Hs.
  destruct m.2 as [a|e]; [apply Hf | split; reflexivity].
Qed.

Lemma ticker_section_out (ticker : string) :
  headings (ticker_section float_repr yf ticker).1 = [ticker] /\
  separators (ticker_section float_repr yf ticker).1 =
    (if raises (ticker_section float_repr yf ticker) then 0 else 1)%nat.
Proof.
  unfold ticker_section.
  set (rest := _ ← display_finviz_chart ticker; _).
  assert (C : closes rest).
  { subst rest.
    apply closes_bind; [apply plain_display_finviz_chart | intros _].
    apply closes_bind; [apply plain_display_stock_info | intros _].
    apply closes_bind; [apply plain_display_financials | intros _].
    apply closes_bind;
      [apply plain_display_calendar_and_expectations | intros _].
    apply closes_bind; [apply plain_display_analyst_rating | intros _].
    apply closes_separator. }
  destruct C as [Ch Cs].
  rewrite ui_bind_out, raises_bind, headings_app, separators_app.
  cbn [emit fst snd]. rewrite Ch, Cs. split; reflexivity.
Qed.

Lemma for_tickers_cons (ticker : string) (tickers : list string) :
  for_tickers float_repr yf (ticker :: tickers) =
  _ ← ticker_section float_repr yf ticker; for_tickers float_repr yf tickers.
Proof. reflexivity. Qed.

(** The loop over the tickers stops at the first section that raises. *)
Lemma for_tickers_run (tickers : list string) :
  let run := for_tickers float_repr yf tickers in
  match first_failure float_repr yf tickers with
  | None =>
      run.2 = Ok tt /\ headings run.1 = tickers /\
      separators run.1 = length tickers
  | Some i =>
      raises run = true /\ headings run.1 = take (S i) tickers /\
      separators run.1 = i /\ (i < length tickers)%nat
  end.
Proof.
  induction tickers as [|t ts IH]; [repeat split|].
  cbv zeta in IH |- *. rewrite for_tickers_cons. cbn [first_failure].
  destruct (ticker_section_out t) as [Hh Hs].
  rewrite ui_bind_out, ui_bind_result, raises_bind, headings_app,
    separators_app, Hh, Hs.
  unfold raises in IH |- *.
  destruct (ticker_section float_repr yf t).2 as [[]|e].
  - destruct (first_failure float_repr yf ts) as [i|]; cbn [fmap option_fmap option_map].
    + destruct IH as (R & H & S & L). repeat split.
      * exact R.
      * cbn. now rewrite H.
      * now rewrite S.
      * cbn. lia.
    + destruct IH as (R & H & S). repeat split.
      * exact R.
      * cbn. now rewrite H.
      * rewrite S. reflexivity.
  - repeat split; cbn; first [reflexivity | lia | now rewrite take_0].
Qed.

(** After a piece that returns [None], the rest decides. *)
Lemma raises_seq {B : Type} (m : ui unit) (k : ui B) :
  raises (_ ← m; k) = raises m || raises k.
Proof. rewrite raises_bind. unfold raises. now destruct m.2. Qed.

Lemma raises_call_bind {A B : Type} (r : result A) (f : A -> ui B) :
  raised r = true -> raises (call r ≫= f) = true.
Proof. destruct r; [discriminate | reflexivity]. Qed.

Lemma raises_call_bind_ok {A B : Type} (r : result A) (f : A -> ui B) :
  raises (call r ≫= f) =
  match r with Ok a => raises (f a) | Raise _ => true end.
Proof. rewrite raises_bind. reflexivity. Qed.

Lemma display_calendar_raises (ticker : string) :
  raised (calendar yf ticker) || raised (earnings yf ticker) ||
    raised (quarterly_earnings yf ticker) = true ->
  raises (display_calendar_and_expectations yf ticker) = true.
Proof.
  unfold display_calendar_and_expectations. rewrite !raises_call_bind_ok.
  destruct (calendar yf ticker); [|reflexivity].
  rewrite !raises_call_bind_ok. destruct (earnings yf ticker); [|reflexivity].
  rewrite !raises_call_bind_ok.
  destruct (quarterly_earnings yf ticker); [discriminate | reflexivity].
Qed.

(** A failing fetch makes the section of its ticker raise. *)
Lemma fetch_failure_raises (ticker : string) :
  fetch_fails yf ticker = true ->
  raises (ticker_section float_repr yf ticker) = true.
Proof.
  unfold fetch_fails, ticker_section. rewrite !raises_seq. intros H.
  assert (E : raises (display_stock_info float_repr yf ticker) = true \/
              raises (display_financials yf ticker) = true \/
              raises (display_calendar_and_expectations yf ticker) = true \/
              raises (display_analyst_rating yf ticker) = true).
  { repeat (apply orb_prop in H; destruct H as [H|H]).
    - left. now apply raises_call_bind.
    - right; left. now apply raises_call_bind.
    - right; right; left. apply display_calendar_raises. now rewrite H.
    - right; right; left. apply display_calendar_raises.
      now rewrite H, orb_true_r.
    - right; right; left. apply display_calendar_raises.
      now rewrite H, orb_true_r.
    - right; right; right. now apply raises_call_bind. }
  destruct E as [E|[E|[E|E]]]; rewrite E; cbn [orb];
    rewrite ?orb_true_r; reflexivity.
Qed.

End Run.

(** The headings and the separators of a run. *)
Lemma main_headings_and_separators (float_repr : float -> string)
    (yf : client) (selection : list string) :
  let run := main float_repr yf selection in
  match first_failure float_repr yf selection with
  | None =>
      run.2 = Ok tt /\ headings run.1 = selection /\
      separators run.1 = length selection
  | Some i =>
      raises run = true /\ headings run.1 = take (S i) selection /\
      separators run.1 = i /\ (i < length selection)%nat
  end.
Proof.
  cbv zeta. unfold main.
  pose proof (for_tickers_run float_repr yf selection) as H. cbv zeta in H.
  rewrite !ui_bind_out, !ui_bind_result, !raises_bind, !headings_app,
    !separators_app.
  cbn [emit fst snd]. unfold raises in H |- *.
  destruct (first_failure float_repr yf selection) as [i|].
  - destruct H as (R & Hh & Hs & L).
    destruct (for_tickers float_repr yf selection).2 as [[]|e]; [discriminate|].
    rewrite !headings_app, !separators_app, Hh, Hs.
    change (headings [SidebarTitle _]) with (@nil string).
    change (headings [SidebarMultiselect _ _ _]) with (@nil string).
    change (separators [SidebarTitle _]) with 0%nat.
    change (separators [SidebarMultiselect _ _ _]) with 0%nat.
    change (headings []) with (@nil string).
    change (separators []) with 0%nat.
    rewrite app_nil_r, Nat.add_0_r. repeat split; first [reflexivity | exact L].
  - destruct H as (R & Hh & Hs). rewrite R.
    rewrite !headings_app, !separators_app, Hh, Hs.
    change (headings [SidebarTitle _]) with (@nil string).
    change (headings [SidebarMultiselect _ _ _]) with (@nil string).
    change (separators [SidebarTitle _]) with 0%nat.
    change (separators [SidebarMultiselect _ _ _]) with 0%nat.
    change (headings [SidebarWrite _]) with (@nil string).
    change (separators [SidebarWrite _]) with 0%nat.
    rewrite app_nil_r, Nat.add_0_r. repeat split; reflexivity.
Qed.

(** Sequencing in [ui] is running until the first exception. *)
Lemma seq_displayed_until_raise (part : ui unit) (parts : list (ui unit)) :
  (_ ← part; displayed_until_raise parts) = displayed_until_raise (part :: parts).
Proof.
  destruct part as [out [[]|e]]; cbn [mbind ui_bind displayed_until_raise fst snd];
    [|reflexivity].
  now destruct (displayed_until_raise parts).
Qed.

Lemma ticker_section_parts (float_repr : float -> string) (yf : client)
    (ticker : string) :
  ticker_section float_repr yf ticker =
  displayed_until_raise (section_parts float_repr yf ticker).
Proof.
  unfold ticker_section, section_parts.
  change (emit (Write "---")) with (displayed_until_raise [emit (Write "---")]).
  now rewrite !seq_displayed_until_raise.
Qed.

(** A display function whose first statement is a failing fetch displays
    nothing and raises what the fetch raised. *)
Lemma call_raise_bind {A B : Type} (e : exn) (f : A -> ui B) :
  call (Raise e) ≫= f = ([], Raise e).
Proof. reflexivity. Qed.

(** The output of the loop, section by section. *)
Lemma for_tickers_output (float_repr : float -> string) (yf : client)
    (tickers : list string) :
  match first_failure float_repr yf tickers with
  | None =>
      for_tickers float_repr yf tickers =
      (sections_output float_repr yf tickers, Ok tt)
  | Some i =>
      exists (ticker : string) (e : exn),
        tickers !! i = Some ticker /\
        (ticker_section float_repr yf ticker).2 = Raise e /\
        Forall (fun t => (ticker_section float_repr yf t).2 = Ok tt)
               (take i tickers) /\
        for_tickers float_repr yf tickers =
        (sections_output float_repr yf (take i tickers) ++
           (ticker_section float_repr yf ticker).1,
         Raise e)
  end.
Proof.
  induction tickers as [|t ts IH]; [reflexivity|].
  rewrite for_tickers_cons. cbn [first_failure]. unfold raises.
  destruct (ticker_section float_repr yf t) as [out [[]|e]] eqn:E; cbn [snd].
  - destruct (first_failure float_repr yf ts) as [i|];
      cbn [fmap option_fmap option_map].
    + destruct IH as (ticker & e & Hl & Hr & Hok & Hrun).
      exists ticker, e. cbn [take lookup list_lookup]. repeat split.
      * exact Hl.
      * exact Hr.
      * constructor; [now rewrite E | exact Hok].
      * rewrite Hrun. cbn [mbind ui_bind]. unfold sections_output.
        cbn [fmap list_fmap concat]. rewrite E. cbn [fst].
        now rewrite app_assoc.
    + rewrite IH. cbn [mbind ui_bind]. unfold sections_output.
      cbn [fmap list_fmap concat]. now rewrite E.
  - exists t, e. cbn [take lookup list_lookup]. repeat split.
    + now rewrite E.
    + constructor.
    + cbn [mbind ui_bind]. now rewrite E.
Qed.

(** C2 (amended). The script handles no exception.  The sections are
    displayed ticker by ticker in selection order, and each section is the
    sequence of its statements run until the first one that raises.  When
    no section raises, every selected ticker has its complete section, in
    selection order, and the run ends normally with the closing sidebar
    line.  A failing data fetch makes the display function that calls it
    raise the exception of the fetch with nothing displayed, and so makes
    the section of its ticker raise: when the fetch of [info] fails, the
    section is its heading and the chart, and nothing more.  When the section of some ticker
    raises, the run ends there with that exception: the output is the
    sidebar head, the complete sections of the tickers before it and what
    the failing section displayed before the failure (its heading, no
    separator); neither the rest of that section nor any later ticker nor
    the closing sidebar line is displayed. *)
Theorem main_stops_at_first_failure (float_repr : float -> string)
    (yf : client) (selection : list string) :
  let run := main float_repr yf selection in
  (forall ticker : string,
     if fetch_fails yf ticker
     then raises (ticker_section float_repr yf ticker) = true
     else True) /\
  (forall ticker : string,
     ticker_section float_repr yf ticker =
     displayed_until_raise (section_parts float_repr yf ticker)) /\
  (forall ticker : string,
     match info yf ticker with
     | Raise e =>
         ticker_section float_repr yf ticker =
         ([Write ("## " +:+ ticker); Header "Finviz Chart Viewer";
           Markdown (chart_image_html (finviz_url ticker));
           Markdown (chart_caption_html (finviz_url ticker) ticker)],
          Raise e)
     | Ok _ => True
     end) /\
  (forall ticker : string,
     match info yf ticker with
     | Raise e => display_stock_info float_repr yf ticker = ([], Raise e)
     | Ok _ => True
     end /\
     match financials yf ticker with
     | Raise e => display_financials yf ticker = ([], Raise e)
     | Ok _ => True
     end /\
     match calendar yf ticker, earnings yf ticker,
           quarterly_earnings yf ticker with
     | Raise e, _, _ | Ok _, Raise e, _ | Ok _, Ok _, Raise e =>
         display_calendar_and_expectations yf ticker = ([], Raise e)
     | Ok _, Ok _, Ok _ => True
     end /\
     match recommendations yf ticker with
     | Raise e => display_analyst_rating yf ticker = ([], Raise e)
     | Ok _ => True
     end) /\
  match first_failure float_repr yf selection with
  | None =>
      run = (sidebar_head ++ sections_output float_repr yf selection ++
               [SidebarWrite "Made with ❤️ by Manu"],
             Ok tt) /\
      run.2 = Ok tt /\ headings run.1 = selection /\
      separators run.1 = length selection
  | Some i =>
      (exists (ticker : string) (e : exn),
         selection !! i = Some ticker /\
         (ticker_section float_repr yf ticker).2 = Raise e /\
         Forall (fun t => (ticker_section float_repr yf t).2 = Ok tt)
                (take i selection) /\
         run = (sidebar_head ++
                  sections_output float_repr yf (take i selection) ++
                  (ticker_section float_repr yf ticker).1,
                Raise e)) /\
      raises run = true /\ headings run.1 = take (S i) selection /\
      separators run.1 = i /\ (i < length selection)%nat
  end.
Proof.
  cbv zeta. split.
  { intros ticker. destruct (fetch_fails yf ticker) eqn:E; [|exact I].
    apply fetch_failure_raises, E. }
  split; [intros ticker; apply ticker_section_parts|]. split.
  { intros ticker. unfold ticker_section, display_stock_info.
    now destruct (info yf ticker). }
  split.
  { intros ticker. repeat split.
    - unfold display_stock_info. now destruct (info yf ticker).
    - unfold display_financials. now destruct (financials yf ticker).
    - unfold display_calendar_and_expectations.
      destruct (calendar yf ticker); [|reflexivity].
      destruct (earnings yf ticker); [|reflexivity].
      now destruct (quarterly_earnings yf ticker).
    - unfold display_analyst_rating. now destruct (recommendations yf ticker). }
  pose proof (main_headings_and_separators float_repr yf selection) as H.
  pose proof (for_tickers_output float_repr yf selection) as O.
  cbv zeta in H.
  destruct (first_failure float_repr yf selection) as [i|].
  - split; [|exact H].
    destruct O as (ticker & e & Hl & Hr & Hok & Hrun).
    exists ticker, e. repeat split; try assumption.
    unfold main. rewrite Hrun. reflexivity.
  - split; [|exact H]. unfold main. rewrite O. cbn [emit mbind ui_bind].
    unfold sidebar_head. cbn [app]. reflexivity.
Qed.

(** C2 (counterexample). With [AAPL], [NOVN] and [MSFT] selected and a
    client whose fetch of [info] fails for [NOVN], the run ends with the
    client's exception: one section is complete, the section of [NOVN]
    stops after the chart, and [MSFT] is not displayed at all. *)
Lemma fetch_failure_ends_the_run :
  let run := main no_repr (sample_client "NOVN") ["AAPL"; "NOVN"; "MSFT"] in
  run.2 = Raise (ClientError "no data") /\
  headings run.1 = ["AAPL"; "NOVN"] /\
  separators run.1 = 1%nat /\
  length (headings run.1) <> length ["AAPL"; "NOVN"; "MSFT"] /\
  last run.1 = Some (Markdown (chart_caption_html (finviz_url "NOVN") "NOVN")).
Proof. vm_compute. repeat split; congruence. Qed.

Example default_selection_runs :
  let run := main no_repr (sample_client "NOVN") default_tickers in
  run.2 = Ok tt /\ headings run.1 = default_tickers /\ separators run.1 = 3%nat.
Proof. vm_compute. repeat split. Qed.

Example missing_line_ends_the_run :
  (main no_repr (sample_client_missing_line "NOVN") ["AAPL"; "NOVN"; "MSFT"]).2
  = Raise (KeyError "Total Revenue").
Proof. vm_compute. reflexivity. Qed.

Lemma missing_rating_is_reported (float_repr : float -> string) (yf : client)
    (ticker : string) :
  recommendations yf ticker = Ok None ->
  display_analyst_rating yf ticker =
  ([Write "No analyst rating available."], Ok tt).
Proof. intros H. unfold display_analyst_rating. now rewrite H. Qed.

(** ** The loop of [format_number] against the spec's formatter *)

Lemma format_f_3_1 (a : number) : format_f 3 1 a = format_f 0 1 a.
Proof.
  unfold format_f. destruct (to_float a) as [x|e]; cbn [mbind result_bind];
    [|reflexivity].
  now rewrite pad_left_3_fixed_1, pad_left_0.
Qed.

Lemma below_1000_not_nan (a : number) : below_1000 a = true -> not_nan a.
Proof.
  destruct a as [n|[s|s| |s m e]]; try (intros _; exact I).
  change (below_1000 (PyFloat S754_nan)) with false. discriminate.
Qed.

Lemma truediv_not_nan (a a' : number) :
  py_truediv_float a f1000 = Ok a' -> not_nan a' -> not_nan a.
Proof.
  destruct a as [n|[s|s| |s m e]]; cbn [not_nan]; try tauto.
  rewrite py_truediv_float_1000. intros [= <-]. exact (fun H => H).
Qed.

Lemma scaled_not_nan (k : nat) (a x : number) :
  scaled k a = Ok x -> not_nan x -> not_nan a.
Proof.
  revert a. induction k as [|k IH]; intros a; [now intros [= ->]|].
  rewrite scaled_S.
  destruct (py_truediv_float a f1000) as [a'|e] eqn:E;
    cbn [mbind result_bind]; [|discriminate].
  intros Hx Hn. eapply truediv_not_nan; [exact E | eauto].
Qed.

(** Away from NaN the two tests are each other's negation. *)
Lemma at_least_1000_below_1000 (a : number) :
  not_nan a -> at_least_1000 a = negb (below_1000 a).
Proof.
  unfold at_least_1000, below_1000. destruct a as [n|x]; cbn [py_abs py_lt_float].
  - intros _. rewrite int_lt_f1000. apply Z.leb_antisym.
  - destruct x as [s|s| |s m e]; cbn [not_nan]; try tauto; try reflexivity.
    intros _. unfold F64.leb, F64.ltb, F64.abs, SFleb, SFltb, f1000.
    cbn [SFabs SFcompare].
    rewrite (Z.compare_antisym e (-43)).
    destruct (e ?= -43); try reflexivity. cbn [CompOpp].
    pose proof (Pos.compare_cont_antisym m 8796093022208000 Eq) as A.
    cbn [CompOpp] in A. rewrite <- A.
    now destruct (Pos.compare_cont Eq m 8796093022208000).
Qed.

Lemma format_number_loop_agrees (rest : list string) (u : string)
    (a x : number) (k : nat) :
  (k <= length rest)%nat -> scaled k a = Ok x -> below_1000 x = true ->
  format_number_loop (u :: rest) a = format_magnitude_loop u rest a.
Proof.
  revert u a k. induction rest as [|u' rest IH]; intros u a k Hk Hx Hb;
    rewrite format_number_loop_cons; fold (below_1000 a).
  - assert (k = 0%nat) as -> by (cbn in Hk; lia). injection Hx as ->.
    rewrite Hb. cbn [format_magnitude_loop]. unfold render_with_suffix.
    now rewrite format_f_3_1.
  - cbn [format_magnitude_loop].
    pose proof (scaled_not_nan k a x Hx (below_1000_not_nan x Hb)) as Hn.
    rewrite (at_least_1000_below_1000 a Hn).
    destruct (below_1000 a) eqn:Ba; cbn [negb].
    + unfold render_with_suffix. now rewrite format_f_3_1.
    + destruct k as [|k]; [injection Hx as ->; congruence|].
      rewrite scaled_S in Hx.
      destruct (py_truediv_float a f1000) as [a'|e];
        cbn [mbind result_bind] in Hx |- *; [|discriminate].
      apply (IH u' a' k); [cbn in Hk; lia | exact Hx | exact Hb].
Qed.

(** Whenever the absolute value falls below 1000 after at most four
    divisions, [format_number] returns what the spec's formatter returns. *)
Lemma format_number_agrees_within_four_divisions (a x : number) (k : nat) :
  (k <= 4)%nat -> scaled k a = Ok x -> below_1000 x = true ->
  format_number (Some a) = format_magnitude (Some a).
Proof.
  intros Hk Hx Hb.
  exact (format_number_loop_agrees ["K"; "M"; "B"; "T"] "" a x k Hk Hx Hb).
Qed.

(** * Further properties of the formatters *)

(** X1. [format_number] returns in the first pass of its loop whose test
    succeeds: when the absolute value first falls below 1000 after [k]
    divisions, the result is that quotient with one fractional digit,
    unpadded, followed by the [k]-th suffix. *)
Theorem format_number_first_pass_below_1000 (a x : number) (k : nat)
    (u : string) :
  units !! k = Some u ->
  scaled k a = Ok x ->
  (forall j y, (j < k)%nat -> scaled j a = Ok y -> below_1000 y = false) ->
  below_1000 x = true ->
  format_number (Some a) = render_with_suffix x u.
Proof.
  intros Hu Hx Hlt Hb. unfold format_number, render_with_suffix.
  rewrite (format_number_loop_stops units a x k u Hu Hx Hlt Hb).
  now rewrite format_f_3_1.
Qed.

(** X1 (witness). [1500000] falls below 1000 after two divisions. *)
Lemma format_number_first_pass_below_1000_witness :
  format_number (Some (PyInt 1500000)) =
  render_with_suffix (PyFloat (F64.literal 15 10)) "M".
Proof.
  apply (format_number_first_pass_below_1000
           (PyInt 1500000) (PyFloat (F64.literal 15 10)) 2 "M").
  - reflexivity.
  - vm_compute. reflexivity.
  - intros j y Hj. destruct j as [|[|j]].
    + intros [= <-]. reflexivity.
    + intros [= <-]. reflexivity.
    + lia.
  - reflexivity.
Defined.

(** X2. When the test fails in all five passes, [format_number] returns
    the value divided five times by [1000.0], with one fractional digit and
    the suffix ["T"]. *)
Theorem format_number_after_five_passes (a : number) :
  (forall j y, (j < 5)%nat -> scaled j a = Ok y -> below_1000 y = false) ->
  format_number (Some a) = (x ← scaled 5 a; render_with_suffix x "T").
Proof. intros H. exact (format_number_loop_falls_through units a H). Qed.

(** X2 (witness). Minus infinity fails every test. *)
Lemma format_number_after_five_passes_witness :
  format_number (Some (PyFloat (S754_infinity true))) =
  (x ← scaled 5 (PyFloat (S754_infinity true)); render_with_suffix x "T").
Proof.
  apply (format_number_after_five_passes (PyFloat (S754_infinity true))).
  intros j y Hj. destruct j as [|[|[|[|[|j]]]]];
    try (intros [= <-]; reflexivity).
  lia.
Defined.

Lemma small_ints_checked : forallb renders_exactly small_ints = true.
Proof. vm_compute. reflexivity. Qed.

(** X3. An integer strictly between [-1000] and [1000] is shown exactly:
    [format_number] returns its decimal digits followed by [".0"]. *)
Theorem format_number_small_int (n : Z) :
  -1000 < n < 1000 ->
  format_number (Some (PyInt n)) = Ok (str_int n +:+ ".0").
Proof.
  intros Hn.
  assert (Hin : In n small_ints).
  { unfold small_ints. apply in_map_iff. exists (Z.to_nat (n + 999)).
    split; [lia | apply in_seq; lia]. }
  pose proof (proj1 (forallb_forall _ _) small_ints_checked n Hin) as H.
  unfold renders_exactly in H.
  destruct (format_number (Some (PyInt n))) as [s|e]; [|discriminate].
  apply String.eqb_eq in H. now subst s.
Qed.

(** X3 (witness). [format_number(-42)]. *)
Lemma format_number_small_int_witness :
  format_number (Some (PyInt (-42))) = Ok (str_int (-42) +:+ ".0").
Proof. apply (format_number_small_int (-42)). lia. Defined.

(** ** What a rendering below 1000 can show *)

Lemma append_empty_r (s : string) : s +:+ "" = s.
Proof.
  induction s as [|c s IH]; [reflexivity|].
  change (String c s +:+ "") with (String c (s +:+ "")). now rewrite IH.
Qed.

Lemma digits2_pos_bound (m : positive) : Z.pos m < 2 ^ Z.pos (digits2_pos m).
Proof.
  induction m as [m IH|m IH|]; cbn [digits2_pos];
    rewrite ?Pos2Z.inj_succ, ?Z.pow_succ_r by lia; lia.
Qed.

Lemma well_formed_mantissa (s : bool) (m : positive) (e : Z) :
  F64.well_formed (S754_finite s m e) = true -> Z.pos m < 2 ^ 53.
Proof.
  unfold F64.well_formed, valid_binary, bounded, canonical_mantissa, fexp,
    F64.prec, F64.emax.
  intros H. apply andb_prop in H as [H _]. apply Z.eqb_eq in H.
  assert (D : Z.pos (digits2_pos m) <= 53) by lia.
  pose proof (digits2_pos_bound m) as B.
  pose proof (Z.pow_le_mono_r 2 (Z.pos (digits2_pos m)) 53 ltac:(lia) D).
  lia.
Qed.

(** A well-formed finite double that passes the test is below 1000 as a
    number: its exponent is negative and the mantissa is bounded. *)
Lemma below_1000_value (s : bool) (m : positive) (e : Z) :
  F64.well_formed (S754_finite s m e) = true ->
  below_1000 (PyFloat (S754_finite s m e)) = true ->
  exists k : positive, e = Z.neg k /\ Z.pos m < 1000 * 2 ^ Z.pos k.
Proof.
  intros W. apply well_formed_mantissa in W.
  unfold below_1000, f1000. cbn [py_abs py_lt_float].
  unfold F64.ltb, F64.abs, SFltb. cbn [SFabs SFcompare].
  destruct (Z.compare_spec e (-43)) as [E|E|E]; try discriminate.
  - subst e. intros H. exists 43%positive. split; [reflexivity|].
    change (1000 * 2 ^ Z.pos 43) with (Z.pos 8796093022208000).
    change (Z.pos m < Z.pos 8796093022208000) with ((m ?= 8796093022208000)%positive = Lt).
    unfold Pos.compare.
    now destruct (PosDef.Pos.compare_cont Eq m 8796093022208000).
  - intros _. destruct e as [|k|k]; try lia. exists k. split; [reflexivity|].
    assert (P : 2 ^ 44 <= 2 ^ Z.pos k) by (apply Z.pow_le_mono_r; lia).
    change (2 ^ 53) with (512 * 2 ^ 44) in W. lia.
Qed.

Lemma scaled_round_1_bound (m k : positive) :
  Z.pos m < 1000 * 2 ^ Z.pos k -> scaled_round 1 m (Z.neg k) <= 10000.
Proof.
  intros H. unfold scaled_round.
  assert (Hd : 0 < 2 ^ Z.pos k) by (apply Z.pow_pos_nonneg; lia).
  change (10 ^ Z.of_nat 1) with 10.
  set (d := 2 ^ Z.pos k) in *. cbv zeta.
  assert (Q : Z.pos m * 10 / d < 10000)
    by (apply Z.div_lt_upper_bound; lia).
  destruct (2 * (Z.pos m * 10 mod d) ?= d); [destruct (Z.even _)| |]; lia.
Qed.

(** X4. A well-formed finite [float] whose absolute value is below
    [1000.0] is returned with the empty suffix, as its nearest multiple of
    one tenth (ties to even), with a sign, an integer part, a point and one
    digit; the number shown is at most [1000.0]. *)
Theorem format_number_below_1000 (s : bool) (m : positive) (e : Z) :
  F64.well_formed (S754_finite s m e) = true ->
  below_1000 (PyFloat (S754_finite s m e)) = true ->
  exists N : Z,
    nearest_scaled 1 m e N /\ N <= 10000 /\
    format_number (Some (PyFloat (S754_finite s m e))) =
      Ok (sign_str s +:+ dec (N / 10) +:+
          String "."%char (String (digit_char (N mod 10)) "")).
Proof.
  intros W B. destruct (below_1000_value s m e W B) as (k & -> & Hm).
  exists (scaled_round 1 m (Z.neg k)). split; [apply scaled_round_nearest|].
  split; [apply scaled_round_1_bound, Hm|].
  unfold format_number, units. rewrite format_number_loop_cons.
  fold (below_1000 (PyFloat (S754_finite s m (Z.neg k)))). rewrite B.
  rewrite format_f_float, pad_left_3_fixed_1. cbn [mbind result_bind].
  f_equal. cbn [fixed]. unfold decimal. cbn [frac_digits].
  change (10 ^ Z.of_nat 1) with 10.
  apply append_empty_r.
Qed.

(** X4 (witness). The double written [123.45]. *)
Lemma format_number_below_1000_witness :
  exists N : Z,
    nearest_scaled 1 8687021468732621 (-46) N /\ N <= 10000 /\
    format_number (Some (PyFloat (S754_finite false 8687021468732621 (-46)))) =
      Ok (sign_str false +:+ dec (N / 10) +:+
          String "."%char (String (digit_char (N mod 10)) "")).
Proof.
  apply (format_number_below_1000 false 8687021468732621 (-46)); reflexivity.
Defined.

(** ** The sign in percentages and ratios *)

Lemma mul_opp (x y : float) : F64.mul (F64.opp x) y = F64.opp (F64.mul x y).
Proof.
  unfold F64.mul, F64.opp.
  destruct x as [sx|sx| |sx mx ex], y as [sy|sy| |sy my ey];
    try reflexivity; cbn [SFopp SFmul]; try (now destruct sx, sy).
  replace (xorb (negb sx) sy) with (negb (xorb sx sy)) by now destruct sx, sy.
  apply binary_round_aux_opp.
Qed.

Lemma mul_100_sign (x : float) :
  has_sign false x -> has_sign false (F64.mul x (F64.of_Z 100)).
Proof.
  change (F64.of_Z 100) with (S754_finite false 7036874417766400 (-46)).
  unfold F64.mul. destruct x as [s|s| |s m e]; cbn [has_sign SFmul];
    try tauto; try (intros ->; reflexivity).
  intros ->. apply (binary_round_aux_sign (xorb false false)). lia.
Qed.

Lemma format_f_0_2_opp (x : float) :
  has_sign false x ->
  format_f 0 2 (PyFloat (F64.opp x)) = String "-"%char <$> format_f 0 2 (PyFloat x).
Proof.
  intros H. now rewrite !format_f_float, !pad_left_0, fixed_opp by exact H.
Qed.

Lemma format_f_0_2_int_opp (n : Z) :
  0 < n ->
  format_f 0 2 (PyInt (- n)) = String "-"%char <$> format_f 0 2 (PyInt n).
Proof.
  intros H. unfold format_f, to_float, int_to_float. rewrite Z.abs_opp.
  destruct (Z.abs n <? F64.overflow_threshold); [|reflexivity].
  cbn [mbind result_bind fmap result_fmap].
  now rewrite !pad_left_0, of_Z_opp, fixed_opp by auto using of_Z_sign.
Qed.

Lemma fmap_append (r : result string) (u : string) :
  (s ← (String "-"%char <$> r); Ok (s +:+ u)) =
  String "-"%char <$> (s ← r; Ok (s +:+ u)).
Proof. destruct r; reflexivity. Qed.

(** X5. For a number above zero, [format_pe_ratio] and [format_percentage]
    return on its negation what they return on the number itself, with
    ["-"] in front (and raise when they raise on the number). *)
Theorem format_ratio_and_percentage_sign (a : number) :
  positive_number a ->
  format_pe_ratio (Some (py_neg a)) =
    String "-"%char <$> format_pe_ratio (Some a) /\
  format_percentage (Some (py_neg a)) =
    String "-"%char <$> format_percentage (Some a).
Proof.
  intros Hpos. destruct a as [n|x]; cbn [positive_number py_neg] in *.
  - split.
    + unfold format_pe_ratio. now rewrite format_f_0_2_int_opp, fmap_append.
    + unfold format_percentage, py_mul_int. cbn [mbind result_bind].
      replace (- n * 100) with (- (n * 100)) by ring.
      now rewrite format_f_0_2_int_opp, fmap_append by lia.
  - pose proof (positive_float_sign x Hpos) as Hs. split.
    + unfold format_pe_ratio. now rewrite format_f_0_2_opp, fmap_append.
    + unfold format_percentage, py_mul_int. rewrite int_to_float_100.
      cbn [mbind result_bind]. rewrite mul_opp.
      now rewrite format_f_0_2_opp, fmap_append by now apply mul_100_sign.
Qed.

(** X5 (witness). The integer [7]. *)
Lemma format_ratio_and_percentage_sign_witness :
  format_pe_ratio (Some (py_neg (PyInt 7))) =
    String "-"%char <$> format_pe_ratio (Some (PyInt 7)) /\
  format_percentage (Some (py_neg (PyInt 7))) =
    String "-"%char <$> format_percentage (Some (PyInt 7)).
Proof. apply (format_ratio_and_percentage_sign (PyInt 7)). reflexivity. Defined.

(** * Further properties of the dashboard *)

Lemma ui_bind_assoc {A B C : Type} (m : ui A) (f : A -> ui B) (g : B -> ui C) :
  (m ≫= f) ≫= g = m ≫= (fun a => f a ≫= g).
Proof.
  destruct m as [out [a|e]]; cbn [mbind ui_bind]; [|reflexivity].
  destruct (f a) as [out1 [b|e]]; cbn [mbind ui_bind].
  - destruct (g b) as [out2 r]. now rewrite app_assoc.
  - reflexivity.
Qed.

Lemma ui_ret_bind {A B : Type} (a : A) (f : A -> ui B) : mret a ≫= f = f a.
Proof. cbn [mret ui_ret mbind ui_bind]. now destruct (f a). Qed.

Lemma last_n_length {A : Type} (n : nat) (l : list A) :
  (length (last_n n l) <= n)%nat.
Proof. unfold last_n. rewrite length_drop. lia. Qed.

Lemma last_n_length_min {A : Type} (n : nat) (l : list A) :
  length (last_n n l) = Nat.min n (length l).
Proof. unfold last_n. rewrite length_drop. lia. Qed.

Lemma last_n_suffix {A : Type} (n : nat) (l : list A) :
  last_n n l `suffix_of` l.
Proof. apply suffix_drop. Qed.

Lemma string_app_inj_r (s t u : string) : s +:+ u = t +:+ u -> s = t.
Proof.
  revert t. induction s as [|c s IH]; intros [|d t] H.
  - reflexivity.
  - apply (f_equal String.length) in H. rewrite !length_append in H.
    cbn in H. lia.
  - apply (f_equal String.length) in H. rewrite !length_append in H.
    cbn in H. lia.
  - change (String c (s +:+ u) = String d (t +:+ u)) in H.
    injection H as -> H. f_equal. now apply IH.
Qed.

(** X6. Two tickers with the same chart link are the same ticker. *)
Theorem finviz_url_inj (ticker1 ticker2 : string) :
  finviz_url ticker1 = finviz_url ticker2 -> ticker1 = ticker2.
Proof.
  unfold finviz_url. intros H. apply String.app_inj in H.
  exact (string_app_inj_r _ _ _ H).
Qed.

(** X6 (witness). *)
Lemma finviz_url_inj_witness : "MSFT" = "MSFT".
Proof. apply (finviz_url_inj "MSFT" "MSFT"). reflexivity. Defined.

(** X7. The sidebar offers 225 pairwise distinct tickers, and the three
    tickers selected at first are among them, as a multiselect requires of
    its default. *)
Theorem default_tickers_offered :
  length ticker_options = 225%nat /\
  NoDup ticker_options /\
  default_tickers ⊆ ticker_options.
Proof.
  split; [reflexivity|]. split.
  - apply (bool_decide_unpack (NoDup ticker_options)). vm_compute. exact I.
  - apply (bool_decide_unpack (default_tickers ⊆ ticker_options)).
    vm_compute. exact I.
Qed.

Section Sections.

Variable float_repr : float -> string.
Variable yf : client.

(** X8. [display_analyst_rating] shows the message
    [No analyst rating available.] when the client has no recommendations,
    and otherwise a subheader and a table with the columns of the
    recommendations and their last ten rows: the row labels and every
    column are the last ten entries of the fetched ones, all of them when
    there are fewer than ten.  It raises only what the fetch raises, and
    then displays nothing. *)
Theorem display_analyst_rating_cases (ticker : string) :
  match recommendations yf ticker with
  | Ok None =>
      display_analyst_rating yf ticker =
      ([Write "No analyst rating available."], Ok tt)
  | Ok (Some r) =>
      exists shown : frame,
        display_analyst_rating yf ticker =
          ([Subheader "Analyst Rating"; Dataframe shown], Ok tt) /\
        columns shown = columns r /\
        match index r, index shown with
        | DatetimeIndex rows, DatetimeIndex rows' =>
            rows' `suffix_of` rows /\
            length rows' = Nat.min 10 (length rows)
        | Index rows, Index rows' =>
            rows' `suffix_of` rows /\
            length rows' = Nat.min 10 (length rows)
        | _, _ => False
        end /\
        length (data shown) = length (data r) /\
        Forall2 (fun col' col =>
                   col' `suffix_of` col /\
                   length col' = Nat.min 10 (length col))
                (data shown) (data r)
  | Raise e => display_analyst_rating yf ticker = ([], Raise e)
  end.
Proof.
  unfold display_analyst_rating.
  destruct (recommendations yf ticker) as [[r|]|e]; try reflexivity.
  exists (tail 10 r). split; [reflexivity|]. split; [reflexivity|].
  cbn [tail data index]. split; [|split; [now rewrite length_fmap|]].
  - destruct (index r) as [rows|rows]; cbn [axis_tail];
      (split; [apply last_n_suffix | apply last_n_length_min]).
  - apply Forall2_fmap_l, Forall_Forall2_diag, Forall_forall. intros col _.
    split; [apply last_n_suffix | apply last_n_length_min].
Qed.

(** X9. Whatever the client answers, the section of a ticker starts with
    its heading and its chart: the heading, the header of the chart, the
    linked image and the caption are displayed before any data is
    fetched. *)
Theorem ticker_section_starts_with_chart (ticker : string) :
  exists rest : list element,
    (ticker_section float_repr yf ticker).1 =
    [Write ("## " +:+ ticker); Header "Finviz Chart Viewer";
     Markdown (chart_image_html (finviz_url ticker));
     Markdown (chart_caption_html (finviz_url ticker) ticker)] ++ rest.
Proof.
  unfold ticker_section, display_finviz_chart.
  eexists. rewrite !ui_bind_assoc, !ui_bind_out. cbn [emit fst snd app].
  reflexivity.
Qed.

(** X10. Running the loop over two selections one after the other is
    running it over their concatenation. *)
Theorem for_tickers_app (tickers1 tickers2 : list string) :
  for_tickers float_repr yf (tickers1 ++ tickers2) =
  (_ ← for_tickers float_repr yf tickers1; for_tickers float_repr yf tickers2).
Proof.
  induction tickers1 as [|t ts IH].
  - cbn [app for_tickers]. now rewrite ui_ret_bind.
  - cbn [app]. rewrite !for_tickers_cons, ui_bind_assoc. now rewrite IH.
Qed.

(** X11. [main] always displays the sidebar title and the ticker
    multiselect first, then what the loop over the selection displays; the
    closing line of the sidebar follows exactly when no section raised. *)
Theorem main_sidebar (selection : list string) :
  (main float_repr yf selection).1 =
    [SidebarTitle "Finviz Chart Viewer";
     SidebarMultiselect "Select Ticker Symbols:" ticker_options default_tickers]
    ++ (for_tickers float_repr yf selection).1
    ++ (if raises (main float_repr yf selection) then []
        else [SidebarWrite "Made with ❤️ by Manu"]) /\
  raises (main float_repr yf selection) =
    raises (for_tickers float_repr yf selection).
Proof.
  unfold main. rewrite !ui_bind_out, !raises_bind. cbn [emit fst snd app].
  unfold raises. destruct (for_tickers float_repr yf selection).2; split;
    reflexivity.
Qed.

End Sections.

(** X12. On a number or on the missing value, the only exception any of
    the three formatters raises is [OverflowError]. *)
Theorem formatters_raise_only_overflow (v : option number) (e : exn) :
  format_number v = Raise e \/ format_percentage v = Raise e \/
    format_pe_ratio v = Raise e ->
  e = OverflowError.
Proof.
  destruct v as [a|]; [|intros [H|[H|H]]; discriminate].
  intros [H|[H|H]].
  - exact (format_number_loop_raises units a e H).
  - unfold format_percentage in H. destruct a as [n|x]; cbn [py_mul_int] in H.
    + cbn [mbind result_bind] in H.
      destruct (format_f 0 2 (PyInt (n * 100))) as [s|e'] eqn:E;
        cbn [mbind result_bind] in H; [discriminate|].
      injection H as <-. exact (format_f_raises _ _ _ _ E).
    + rewrite int_to_float_100 in H. discriminate.
  - unfold format_pe_ratio in H.
    destruct (format_f 0 2 a) as [s|e'] eqn:E; cbn [mbind result_bind] in H;
      [discriminate|].
    injection H as <-. exact (format_f_raises _ _ _ _ E).
Qed.

(** X12 (witness). [format_pe_ratio] on a huge integer. *)
Lemma formatters_raise_only_overflow_witness : OverflowError = OverflowError.
Proof.
  apply (formatters_raise_only_overflow (Some (PyInt (10 ^ 400))) OverflowError).
  right. right. vm_compute. reflexivity.
Defined.

(** ** Formatting a column *)

Lemma mapM_Forall2 {A B : Type} (f : A -> result B) (l : list A) (l' : list B) :
  mapM f l = Ok l' -> Forall2 (fun x y => f x = Ok y) l l'.
Proof.
  revert l'. induction l as [|x l IH]; intros l'; cbn [mapM].
  - intros [= <-]. constructor.
  - destruct (f x) as [y|e] eqn:E; cbn [mbind result_bind]; [|discriminate].
    destruct (mapM f l) as [ys|e]; cbn [mbind result_bind]; [|discriminate].
    intros [= <-]. constructor; [exact E | now apply IH].
Qed.

(** X13. When [col.apply(format_number)] returns, the new column has one
    string per cell of the old one, each the result of [format_number] on
    that cell; in particular a [None] cell becomes ["N/A"]. *)
Theorem apply_format_number_cells (col col' : list pyval) :
  apply_format_number col = Ok col' ->
  length col' = length col /\
  Forall2 (fun v v' => exists s, format_number_val v = Ok s /\ v' = VStr s)
          col col' /\
  forall i : nat, col !! i = Some VNone -> col' !! i = Some (VStr "N/A").
Proof.
  intros H. apply mapM_Forall2 in H.
  assert (F : Forall2 (fun v v' => exists s, format_number_val v = Ok s /\ v' = VStr s)
                      col col').
  { eapply Forall2_impl; [exact H|]. intros v v' Hv. cbn beta in Hv.
    destruct (format_number_val v) as [s|e]; [|discriminate].
    injection Hv as <-. now exists s. }
  split; [symmetry; exact (Forall2_length _ _ _ F)|]. split; [exact F|].
  intros i Hi.
  destruct (Forall2_lookup_l _ _ _ _ _ F Hi) as (v' & Hv' & s & Hs & ->).
  cbn in Hs. now injection Hs as <-.
Qed.

(** X13 (witness). A column with a missing cell and a number. *)
Lemma apply_format_number_cells_witness :
  length [VStr "N/A"; VStr "1.5M"] = length [VNone; VNum (PyInt 1500000)] /\
  Forall2 (fun v v' => exists s, format_number_val v = Ok s /\ v' = VStr s)
          [VNone; VNum (PyInt 1500000)] [VStr "N/A"; VStr "1.5M"] /\
  forall i : nat, [VNone; VNum (PyInt 1500000)] !! i = Some VNone ->
                  [VStr "N/A"; VStr "1.5M"] !! i = Some (VStr "N/A").
Proof.
  apply (apply_format_number_cells [VNone; VNum (PyInt 1500000)]
                                   [VStr "N/A"; VStr "1.5M"]).
  vm_compute. reflexivity.
Defined.

(** ** The stock information *)

Lemma returns_ok {A : Type} (r : result A) : returns r -> exists a, r = Ok a.
Proof. destruct r as [a|e]; [now exists a | contradiction]. Qed.

Lemma formattable_format_number (v : pyval) :
  formattable v -> exists s, format_number_val v = Ok s.
Proof.
  destruct v as [|[n|x]|s]; cbn [formattable format_number_val]; intros H.
  - now exists "N/A".
  - apply returns_ok, format_number_int_returns. lia.
  - apply returns_ok, format_number_loop_float_returns.
  - contradiction.
Qed.

Lemma formattable_format_pe_ratio (v : pyval) :
  formattable v -> exists s, format_pe_ratio_val v = Ok s.
Proof.
  destruct v as [|[n|x]|s]; cbn [formattable format_pe_ratio_val]; intros H.
  - now exists "N/A".
  - unfold format_pe_ratio, format_f, to_float, int_to_float.
    destruct (Z.ltb_spec (Z.abs n) F64.overflow_threshold); [|lia].
    cbn [mbind result_bind]. now eexists.
  - unfold format_pe_ratio. rewrite format_f_float. cbn [mbind result_bind].
    now eexists.
  - contradiction.
Qed.

Lemma formattable_format_percentage (v : pyval) :
  formattable v -> exists s, format_percentage_val v = Ok s.
Proof.
  destruct v as [|[n|x]|s]; cbn [formattable format_percentage_val]; intros H.
  - now exists "N/A".
  - unfold format_percentage, py_mul_int, format_f, to_float, int_to_float.
    cbn [mbind result_bind].
    destruct (Z.ltb_spec (Z.abs (n * 100)) F64.overflow_threshold); [|lia].
    cbn [mbind result_bind]. now eexists.
  - unfold format_percentage, py_mul_int. rewrite int_to_float_100.
    cbn [mbind result_bind]. rewrite format_f_float. cbn [mbind result_bind].
    now eexists.
  - contradiction.
Qed.

Lemma printable_py_str (float_repr : float -> string) (v : pyval) :
  printable v -> exists s, py_str float_repr v = Ok s.
Proof.
  destruct v as [|[n|x]|s]; cbn [printable py_str]; intros H; try (now eexists).
  destruct (Z.ltb_spec (Z.abs n) str_digits_bound); [now eexists | lia].
Qed.

Section StockInfo.

Variable float_repr : float -> string.
Variable yf : client.

(** X14. When the fetch of [info] succeeds, each of the seven numeric
    entries is absent, [None], a [float] or an [int] in the range of
    [float], and the sector entry is not an [int] beyond the digit limit of
    [str], [display_stock_info] does not raise and displays the subheader
    and eight lines, one per field, each with its formatted value. *)
Theorem display_stock_info_returns (ticker : string) (d : gmap string pyval) :
  info yf ticker = Ok d ->
  Forall (fun key => formattable (dict_get d key)) stock_info_keys ->
  printable (dict_get_default d "sector" (VStr "N/A")) ->
  exists cap pe fpe growth rev inc shares sector : string,
    format_number_val (dict_get d "marketCap") = Ok cap /\
    format_pe_ratio_val (dict_get d "trailingPE") = Ok pe /\
    format_pe_ratio_val (dict_get d "forwardPE") = Ok fpe /\
    format_percentage_val (dict_get d "earningsGrowth") = Ok growth /\
    format_number_val (dict_get d "totalRevenue") = Ok rev /\
    format_number_val (dict_get d "netIncomeToCommon") = Ok inc /\
    format_number_val (dict_get d "sharesOutstanding") = Ok shares /\
    py_str float_repr (dict_get_default d "sector" (VStr "N/A")) = Ok sector /\
    display_stock_info float_repr yf ticker =
      ([Subheader "Stock Information";
        Write ("**Market Cap:** " +:+ cap);
        Write ("**PE Ratio:** " +:+ pe);
        Write ("**Forward PE:** " +:+ fpe);
        Write ("**Expected EPS Growth:** " +:+ growth);
        Write ("**Revenue:** " +:+ rev);
        Write ("**Income:** " +:+ inc);
        Write ("**Outstanding Shares:** " +:+ shares);
        Write ("**Sector:** " +:+ sector)],
       Ok tt).
Proof.
  intros Hinfo Hall Hsec. unfold stock_info_keys in Hall.
  repeat match goal with
         | H : Forall _ (_ :: _) |- _ => apply Forall_cons in H as [? H]
         end.
  destruct (formattable_format_number _ H) as [cap E1].
  destruct (formattable_format_pe_ratio _ H0) as [pe E2].
  destruct (formattable_format_pe_ratio _ H1) as [fpe E3].
  destruct (formattable_format_percentage _ H2) as [growth E4].
  destruct (formattable_format_number _ H3) as [rev E5].
  destruct (formattable_format_number _ H4) as [inc E6].
  destruct (formattable_format_number _ H5) as [shares E7].
  destruct (printable_py_str float_repr _ Hsec) as [sector E8].
  exists cap, pe, fpe, growth, rev, inc, shares, sector.
  repeat (split; [assumption|]).
  unfold display_stock_info. rewrite Hinfo.
  cbn [call emit mbind ui_bind app]. rewrite E1.
  cbn [call emit mbind ui_bind app]. rewrite E2.
  cbn [call emit mbind ui_bind app]. rewrite E3.
  cbn [call emit mbind ui_bind app]. rewrite E4.
  cbn [call emit mbind ui_bind app]. rewrite E5.
  cbn [call emit mbind ui_bind app]. rewrite E6.
  cbn [call emit mbind ui_bind app]. rewrite E7.
  cbn [call emit mbind ui_bind app]. rewrite E8.
  reflexivity.
Qed.

(** X15. When [info] has none of the eight entries the section reads,
    every line of the stock information shows ["N/A"] and nothing is
    raised. *)
Theorem display_stock_info_all_missing (ticker : string) (d : gmap string pyval) :
  info yf ticker = Ok d ->
  Forall (fun key => d !! key = None) ("sector" :: stock_info_keys) ->
  display_stock_info float_repr yf ticker =
    ([Subheader "Stock Information";
      Write "**Market Cap:** N/A";
      Write "**PE Ratio:** N/A";
      Write "**Forward PE:** N/A";
      Write "**Expected EPS Growth:** N/A";
      Write "**Revenue:** N/A";
      Write "**Income:** N/A";
      Write "**Outstanding Shares:** N/A";
      Write "**Sector:** N/A"],
     Ok tt).
Proof.
  intros Hinfo Hall. unfold stock_info_keys in Hall.
  repeat match goal with
         | H : Forall _ (_ :: _) |- _ => apply Forall_cons in H as [? H]
         end.
  unfold display_stock_info. rewrite Hinfo.
  cbn [call emit mbind ui_bind app]. unfold dict_get, dict_get_default.
  rewrite H, H0, H1, H2, H3, H4, H5, H6. reflexivity.
Qed.

(** X16. A string under [trailingPE] makes [display_stock_info] raise
    [ValueError] from the format type [f], after the subheader and the
    line of the market capitalisation have been displayed. *)
Theorem display_stock_info_string_ratio (ticker : string)
    (d : gmap string pyval) (s cap : string) :
  info yf ticker = Ok d ->
  d !! "trailingPE" = Some (VStr s) ->
  format_number_val (dict_get d "marketCap") = Ok cap ->
  display_stock_info float_repr yf ticker =
    ([Subheader "Stock Information"; Write ("**Market Cap:** " +:+ cap)],
     Raise (ValueError "f")).
Proof.
  intros Hinfo Hpe Hcap. unfold display_stock_info. rewrite Hinfo.
  cbn [call emit mbind ui_bind app]. rewrite Hcap.
  cbn [call emit mbind ui_bind app]. unfold dict_get at 1. rewrite Hpe.
  reflexivity.
Qed.

End StockInfo.

(** X14 (witness). The sample client on [AAPL]. *)
Lemma display_stock_info_returns_witness :
  exists cap pe fpe growth rev inc shares sector : string,
    format_number_val (dict_get sample_info "marketCap") = Ok cap /\
    format_pe_ratio_val (dict_get sample_info "trailingPE") = Ok pe /\
    format_pe_ratio_val (dict_get sample_info "forwardPE") = Ok fpe /\
    format_percentage_val (dict_get sample_info "earningsGrowth") = Ok growth /\
    format_number_val (dict_get sample_info "totalRevenue") = Ok rev /\
    format_number_val (dict_get sample_info "netIncomeToCommon") = Ok inc /\
    format_number_val (dict_get sample_info "sharesOutstanding") = Ok shares /\
    py_str no_repr (dict_get_default sample_info "sector" (VStr "N/A")) =
      Ok sector /\
    display_stock_info no_repr (sample_client "NOVN") "AAPL" =
      ([Subheader "Stock Information";
        Write ("**Market Cap:** " +:+ cap);
        Write ("**PE Ratio:** " +:+ pe);
        Write ("**Forward PE:** " +:+ fpe);
        Write ("**Expected EPS Growth:** " +:+ growth);
        Write ("**Revenue:** " +:+ rev);
        Write ("**Income:** " +:+ inc);
        Write ("**Outstanding Shares:** " +:+ shares);
        Write ("**Sector:** " +:+ sector)],
       Ok tt).
Proof.
  apply (display_stock_info_returns no_repr (sample_client "NOVN") "AAPL"
           sample_info).
  - reflexivity.
  - repeat apply Forall_cons_2; try apply Forall_nil_2; vm_compute;
      first [exact I | reflexivity].
  - exact I.
Defined.

(** X15 (witness). A client whose [info] is empty. *)
Lemma display_stock_info_all_missing_witness :
  display_stock_info no_repr (sample_client_missing_line "NOVN") "AAPL" =
    ([Subheader "Stock Information";
      Write "**Market Cap:** N/A";
      Write "**PE Ratio:** N/A";
      Write "**Forward PE:** N/A";
      Write "**Expected EPS Growth:** N/A";
      Write "**Revenue:** N/A";
      Write "**Income:** N/A";
      Write "**Outstanding Shares:** N/A";
      Write "**Sector:** N/A"],
     Ok tt).
Proof.
  apply (display_stock_info_all_missing no_repr
           (sample_client_missing_line "NOVN") "AAPL" ∅).
  - reflexivity.
  - repeat apply Forall_cons_2; try apply Forall_nil_2; reflexivity.
Defined.

(** X16 (witness). A client that answers ["Infinity"] for [trailingPE]. *)
Lemma display_stock_info_string_ratio_witness :
  display_stock_info no_repr sample_client_string_ratio "AAPL" =
    ([Subheader "Stock Information"; Write ("**Market Cap:** " +:+ "N/A")],
     Raise (ValueError "f")).
Proof.
  apply (display_stock_info_string_ratio no_repr sample_client_string_ratio
           "AAPL" {[ "trailingPE" := VStr "Infinity" ]} "Infinity" "N/A");
    reflexivity.
Defined.

(** ** The financials *)

Lemma label_eqb_str (c : string) (l : label) :
  label_eqb (LStr c) l = true -> l = LStr c.
Proof.
  destruct l as [s|n]; cbn [label_eqb]; [|discriminate].
  intros H. apply String.eqb_eq in H. now subst.
Qed.

Lemma position_lookup (c : string) (labels : list label) (j : nat) :
  position (LStr c) labels = Some j -> labels !! j = Some (LStr c).
Proof.
  revert j. induction labels as [|l labels IH]; intros j; cbn [position];
    [discriminate|].
  destruct (label_eqb (LStr c) l) eqn:E.
  - intros [= <-]. cbn. f_equal. now apply label_eqb_str.
  - destruct (position (LStr c) labels) as [i|]; cbn; [|discriminate].
    intros [= <-]. cbn. now apply IH.
Qed.

Lemma position_lt (c : string) (labels : list label) (j : nat) :
  position (LStr c) labels = Some j -> (j < length labels)%nat.
Proof. intros H. eapply lookup_lt_Some, position_lookup, H. Qed.

Lemma transpose_line (f : frame) (labels : list label) (j : nat) :
  index f = Index labels -> (j < length labels)%nat ->
  data (transpose f) !! j = Some (statement_line f j).
Proof.
  intros Hi Hj. unfold transpose. cbn [data]. rewrite Hi. cbn [axis_size].
  rewrite list_lookup_fmap, lookup_seq_lt by exact Hj. reflexivity.
Qed.

Lemma format_column_cases (fr : frame) (c : string) :
  format_column fr c =
  match column_position fr c with
  | None => Raise (KeyError c)
  | Some j =>
      match apply_format_number (default [] (data fr !! j)) with
      | Ok col' => Ok (mkFrame (index fr) (columns fr) (<[j := col']> (data fr)))
      | Raise e => Raise e
      end
  end.
Proof.
  unfold format_column, get_column, set_column.
  destruct (column_position fr c) as [j|]; cbn [mbind result_bind];
    [|reflexivity].
  now destruct (apply_format_number (default [] (data fr !! j))).
Qed.

Lemma column_position_transpose (f : frame) (ix : axis) (c : string) :
  column_position (set_index (transpose f) ix) c =
  match index f with
  | Index labels => position (LStr c) labels
  | DatetimeIndex _ => None
  end.
Proof. reflexivity. Qed.

Section Financials.

Variable yf : client.

(** X17. [display_financials] displays all or nothing: when it raises,
    nothing has been displayed; when it returns, it has displayed the
    subheader and one table whose rows are the years of the statement's
    dates and whose two columns, [Total Revenue] and [Net Income], hold
    the statement's lines of those names, cell by cell through
    [format_number]. *)
Theorem display_financials_all_or_nothing (ticker : string) :
  match (display_financials yf ticker).2 with
  | Raise _ => (display_financials yf ticker).1 = []
  | Ok _ =>
      exists (f : frame) (dates : list date) (labels : list label)
             (jr ji : nat) (rev inc : list pyval),
        financials yf ticker = Ok f /\
        columns f = DatetimeIndex dates /\
        index f = Index labels /\
        position (LStr "Total Revenue") labels = Some jr /\
        position (LStr "Net Income") labels = Some ji /\
        apply_format_number (statement_line f jr) = Ok rev /\
        apply_format_number (statement_line f ji) = Ok inc /\
        (display_financials yf ticker).1 =
          [Subheader "Financials";
           Dataframe
             (mkFrame (Index ((fun d => LInt (year d)) <$> dates))
                      (Index [LStr "Total Revenue"; LStr "Net Income"])
                      [rev; inc])]
  end.
Proof.
  unfold display_financials.
  destruct (financials yf ticker) as [f|e] eqn:Hf; [|reflexivity].
  cbn [call mbind ui_bind]. unfold index_year. cbn [transpose index].
  destruct (columns f) as [dates|cl] eqn:Hc; [|reflexivity].
  cbn [call mbind ui_bind].
  rewrite format_column_cases, column_position_transpose.
  cbn [set_index transpose columns data index].
  destruct (index f) as [ds|labels] eqn:Hi; [reflexivity|].
  destruct (position (LStr "Total Revenue") labels) as [jr|] eqn:Pr;
    [|reflexivity].
  pose proof (position_lt _ _ _ Pr) as Lr.
  pose proof (transpose_line f labels jr Hi Lr) as Tr.
  unfold transpose in Tr. cbn [data] in Tr. rewrite Hi in Tr.
  rewrite Tr. cbn [from_option]. unfold id.
  destruct (apply_format_number (statement_line f jr)) as [rev|e] eqn:Ar;
    [|reflexivity].
  rewrite format_column_cases.
  cbn [column_position columns data index].
  destruct (position (LStr "Net Income") labels) as [ji|] eqn:Pi;
    [|reflexivity].
  pose proof (position_lt _ _ _ Pi) as Li.
  pose proof (transpose_line f labels ji Hi Li) as Ti.
  unfold transpose in Ti. cbn [data] in Ti. rewrite Hi in Ti.
  assert (Hne : jr <> ji).
  { intros ->. apply position_lookup in Pr, Pi. congruence. }
  set (rows := _ <$> seq 0 (axis_size (Index labels))) in *.
  assert (Hlen : length rows = length labels)
    by (subst rows; now rewrite length_fmap, length_seq).
  rewrite list_lookup_insert_ne, Ti by exact Hne.
  cbn [from_option]. unfold id.
  destruct (apply_format_number (statement_line f ji)) as [inc|e] eqn:Ai;
    [|reflexivity].
  unfold select_columns, get_column. cbn [mapM column_position columns data].
  rewrite Pr, Pi. cbn [mbind result_bind].
  rewrite list_lookup_insert_ne, list_lookup_insert_eq by (auto; lia).
  rewrite list_lookup_insert_eq by (rewrite length_insert; lia).
  cbn [from_option]. unfold id. cbn.
  exists f, dates, labels, jr, ji, rev, inc. repeat split; assumption || reflexivity.
Qed.

(** X18. The failures of [display_financials], in the order the code meets
    them: what the fetch raises; [AttributeError] when the columns of the
    statement are not dates, so that the transposed index has no [year];
    [KeyError] when the statement has no [Total Revenue] line.  Nothing is
    displayed in any of these cases. *)
Theorem display_financials_failures (ticker : string) :
  match financials yf ticker with
  | Raise e => display_financials yf ticker = ([], Raise e)
  | Ok f =>
      match columns f, index f with
      | Index _, _ =>
          display_financials yf ticker = ([], Raise (AttributeError "year"))
      | DatetimeIndex _, DatetimeIndex _ =>
          display_financials yf ticker = ([], Raise (KeyError "Total Revenue"))
      | DatetimeIndex _, Index labels =>
          match position (LStr "Total Revenue") labels with
          | None =>
              display_financials yf ticker =
              ([], Raise (KeyError "Total Revenue"))
          | Some _ => True
          end
      end
  end.
Proof.
  unfold display_financials.
  destruct (financials yf ticker) as [f|e] eqn:Hf; [|reflexivity].
  cbn [call mbind ui_bind]. unfold index_year. cbn [transpose index].
  destruct (columns f) as [dates|cl] eqn:Hc; [|reflexivity].
  cbn [call mbind ui_bind].
  rewrite format_column_cases, column_position_transpose.
  destruct (index f) as [ds|labels] eqn:Hi; [reflexivity|].
  destruct (position (LStr "Total Revenue") labels); [exact I | reflexivity].
Qed.

End Financials.

(** ** The calendar and the earnings *)

Lemma format_number_val_raises (v : pyval) (e : exn) :
  format_number_val v = Raise e -> formatting_error e.
Proof.
  destruct v as [|a|s]; cbn [format_number_val].
  - discriminate.
  - intros H. left. exact (format_number_loop_raises units a e H).
  - intros [= <-]. now right.
Qed.

Lemma apply_format_number_raises (col : list pyval) (e : exn) :
  apply_format_number col = Raise e -> formatting_error e.
Proof.
  unfold apply_format_number. induction col as [|v col IH]; cbn [mapM];
    [discriminate|].
  destruct (format_number_val v) as [s|e'] eqn:E;
    cbn [fmap result_fmap mbind result_bind].
  - destruct (mapM _ col) as [ys|e'']; cbn [mbind result_bind];
      [discriminate|].
    intros [= <-]. now apply IH.
  - intros [= <-]. exact (format_number_val_raises v e' E).
Qed.

Lemma format_column_ok (f f' : frame) (c : string) :
  format_column f c = Ok f' -> columns f' = columns f /\ index f' = index f.
Proof.
  rewrite format_column_cases.
  destruct (column_position f c) as [j|]; [|discriminate].
  destruct (apply_format_number _) as [col'|e]; [|discriminate].
  intros [= <-]. split; reflexivity.
Qed.

Lemma format_column_raises (f : frame) (c : string) (e : exn) :
  is_Some (column_position f c) -> format_column f c = Raise e ->
  formatting_error e.
Proof.
  rewrite format_column_cases. intros [j ->].
  destruct (apply_format_number _) as [col'|e'] eqn:E; [discriminate|].
  intros [= <-]. exact (apply_format_number_raises _ _ E).
Qed.

Lemma format_columns_cons (f : frame) (c : string) (cs : list string) :
  format_columns f (c :: cs) = f1 ← format_column f c; format_columns f1 cs.
Proof.
  cbn [format_columns]. unfold format_column.
  destruct (get_column f c) as [col|e]; cbn [mbind result_bind]; [|reflexivity].
  now destruct (apply_format_number col).
Qed.

Lemma column_position_columns (f f' : frame) (c : string) :
  columns f' = columns f -> column_position f' c = column_position f c.
Proof. unfold column_position. now intros ->. Qed.

Lemma format_columns_ok (cs : list string) (f f' : frame) :
  format_columns f cs = Ok f' -> columns f' = columns f /\ index f' = index f.
Proof.
  revert f. induction cs as [|c cs IH]; intros f.
  - intros [= <-]. split; reflexivity.
  - rewrite format_columns_cons.
    destruct (format_column f c) as [f1|e] eqn:E; cbn [mbind result_bind];
      [|discriminate].
    intros H. apply IH in H as [H1 H2]. apply format_column_ok in E as [E1 E2].
    split; congruence.
Qed.

Lemma format_columns_raises (cs : list string) (f : frame) (e : exn) :
  Forall (fun c => is_Some (column_position f c)) cs ->
  format_columns f cs = Raise e -> formatting_error e.
Proof.
  revert f. induction cs as [|c cs IH]; intros f Hall; [discriminate|].
  rewrite format_columns_cons. apply Forall_cons in Hall as [Hc Hall].
  destruct (format_column f c) as [f1|e'] eqn:E; cbn [mbind result_bind].
  - apply IH. apply format_column_ok in E as [E _].
    eapply Forall_impl; [exact Hall|]. intros c' Hc'. cbn beta in *.
    now rewrite (column_position_columns f f1 c' E).
  - intros [= <-]. exact (format_column_raises f c e' Hc E).
Qed.

Lemma label_eqb_refl (l : label) : label_eqb l l = true.
Proof. destruct l; cbn; [apply String.eqb_refl | apply Z.eqb_refl]. Qed.

Lemma position_elem_of (l : label) (labels : list label) :
  l ∈ labels -> is_Some (position l labels).
Proof.
  induction labels as [|l' labels IH]; [intros H; inversion H|].
  intros H. cbn [position]. destruct (label_eqb l l') eqn:E; [now eexists|].
  apply elem_of_cons in H as [->|H]; [now rewrite label_eqb_refl in E|].
  destruct (IH H) as [j ->]. now eexists.
Qed.

(** Every column that [select_dtypes] names is a column of the frame. *)
Lemma numeric_columns_present (f : frame) :
  Forall (fun c => is_Some (column_position f c)) (numeric_columns f).
Proof.
  apply Forall_forall. intros c Hc. unfold numeric_columns, column_position in *.
  destruct (columns f) as [dates|labels]; [inversion Hc|].
  apply list_elem_of_omap in Hc as ([l col] & Hin & Hm).
  destruct l as [s|n]; [|discriminate].
  destruct (forallb is_number col); [|discriminate]. injection Hm as ->.
  apply position_elem_of. apply elem_of_zip_l in Hin. exact Hin.
Qed.

Lemma format_column_if_present_raises (f : option frame) (c : string) (e : exn) :
  format_column_if_present f c = Raise e -> formatting_error e.
Proof.
  unfold format_column_if_present. destruct f as [fr|]; [|discriminate].
  unfold has_column. destruct (column_position fr c) as [j|] eqn:P;
    [|discriminate].
  destruct (format_column fr c) as [fr'|e'] eqn:E;
    cbn [fmap result_fmap]; [discriminate|].
  intros [= <-]. eapply format_column_raises; [|exact E]. rewrite P. now eexists.
Qed.

Section Calendar.

Variable yf : client.

(** X19. When its three fetches succeed, [display_calendar_and_expectations]
    raises nothing but what [format_number] raises on a cell
    ([OverflowError], or [TypeError] on text): the columns it formats are
    looked up only after they were found to exist, so an earnings table
    without a [Revenue] or an [Earnings] column raises no [KeyError]. *)
Theorem display_calendar_raises_only_formatting (ticker : string)
    (cal : frame) (earn quarterly : option frame) :
  calendar yf ticker = Ok cal ->
  earnings yf ticker = Ok earn ->
  quarterly_earnings yf ticker = Ok quarterly ->
  match (display_calendar_and_expectations yf ticker).2 with
  | Ok _ => True
  | Raise e => formatting_error e
  end.
Proof.
  intros Hc He Hq. unfold display_calendar_and_expectations.
  rewrite Hc, He, Hq. cbn [call mbind ui_bind].
  destruct (format_columns cal (numeric_columns cal)) as [cal'|e] eqn:E1.
  2:{ cbn [snd]. eapply format_columns_raises;
        [apply numeric_columns_present | exact E1]. }
  cbn [call mbind ui_bind].
  destruct (format_column_if_present earn "Revenue") as [earn1|e] eqn:E2.
  2:{ cbn [snd]. exact (format_column_if_present_raises _ _ _ E2). }
  cbn [call mbind ui_bind].
  destruct (format_column_if_present earn1 "Earnings") as [earn2|e] eqn:E3.
  2:{ cbn [snd]. exact (format_column_if_present_raises _ _ _ E3). }
  cbn [call mbind ui_bind].
  destruct (format_column_if_present quarterly "Revenue") as [q1|e] eqn:E4.
  2:{ cbn [snd]. exact (format_column_if_present_raises _ _ _ E4). }
  cbn [call mbind ui_bind].
  destruct (format_column_if_present q1 "Earnings") as [q2|e] eqn:E5.
  2:{ cbn [snd]. exact (format_column_if_present_raises _ _ _ E5). }
  cbn [call emit mbind ui_bind].
  destruct earn2, q2; exact I.
Qed.

End Calendar.

(** X19 (witness). Text in the [Revenue] column of the earnings. *)
Lemma display_calendar_raises_only_formatting_witness :
  match (display_calendar_and_expectations sample_client_text_revenue "AAPL").2 with
  | Ok _ => True
  | Raise e => formatting_error e
  end.
Proof.
  apply (display_calendar_raises_only_formatting sample_client_text_revenue
           "AAPL" empty_frame
           (Some (mkFrame (Index [LInt 2023]) (Index [LStr "Revenue"])
                          [[VStr "n/a"]]))
           None); reflexivity.
Defined.









Section CalendarTables.

Variable yf : client.


End CalendarTables.


Example display_calendar_with_earnings :
  display_calendar_and_expectations sample_client_with_earnings "AAPL" =
  ([Subheader "Calendar";
    Dataframe (mkFrame (Index [LInt 0])
                       (Index [LStr "Earnings Average"; LStr "Event"])
                       [[VStr "2.5"]; [VStr "Q1"]]);
    Dataframe (mkFrame (Index [LInt 2022; LInt 2023])
                       (Index [LStr "Revenue"; LStr "Earnings"])
                       [[VStr "282.8B"; VStr "307.4B"];
                        [VStr "60.0B"; VStr "N/A"]]);
    Dataframe (mkFrame (Index [LStr "3Q2023"])
                       (Index [LStr "Quarter"; LStr "Revenue"])
                       [[VStr "third"]; [VStr "76.7B"]])],
   Ok tt).
Proof. vm_compute. reflexivity. Qed.
